(** * Chef Muse: the generation gateway and the application state controller

    A shallow embedding of [services/geminiService.ts] (the three gateway
    operations) and of the controller part of [App.tsx] (state, history
    persistence, error classification, rendering), with the platform
    functions they call: string truthiness, [String.prototype.includes],
    [Array.join], object spread and [localStorage].

    Conventions.  A string is written with the 8-bit characters of the
    Standard Library, as the bytes of its UTF-8 encoding (a surrogate that
    has no partner as the three bytes of its own code point): the string
    literals of the sources are ASCII, and equality, emptiness, concatenation
    with an ASCII text and the search for one are on the bytes what they are
    on the code units.  A number is an IEEE 754 double.  [null] and
    [undefined] of a [string | null] or of an optional argument are both
    [None].  An operation that awaits the remote model is a function of the
    world it runs in, and returns the requests it sent together with its
    completion; what the console logs is left out.

    The platform's [JSON.parse] and [JSON.stringify] are parameters of the
    development ([JSON.Platform]): whatever is proved holds for every pair of
    such functions for which the empty text is a syntax error.  [MiniJSON] is
    one such pair, written out, with which the statements are run on concrete
    inputs. *)

From Stdlib Require Import String Ascii List ZArith NArith Bool Lia Arith.
From Stdlib Require Import DecimalString.
From Stdlib Require DecimalN DecimalFacts SpecFloat.
Import ListNotations.
Open Scope string_scope.

#[local] Set Warnings "-register-all".

(** ** JavaScript values and helpers *)

Module JS.

(** The double quote character, for template strings that contain it. *)
Definition dquote : ascii := "034"%char.
Definition backslash : ascii := "092"%char.

(** A thrown value.  Everything the sources throw is an [Error] with a
    message; the provider's SDK may throw values of its own, which may lack
    a message ([None]). *)
Record JSError := mkError { message : option string }.

Definition Error (m : string) : JSError := mkError (Some m).

(** Normal or abrupt completion of a call. *)
Inductive Completion (A : Type) :=
| Return (a : A)
| Throw (e : JSError).
Arguments Return {A} a.
Arguments Throw {A} e.

(** Truthiness of a [string | null | undefined]: only a non-empty string
    is truthy. *)
Definition truthy (s : option string) : bool :=
  match s with
  | Some (String _ _) => true
  | _ => false
  end.

(** [a || d] for such a value. *)
Definition or_else (a : option string) (d : string) : string :=
  match a with
  | Some (String c r) => String c r
  | _ => d
  end.

(** [hay.includes(needle)]. *)
Fixpoint includes (needle hay : string) : bool :=
  String.prefix needle hay ||
  match hay with
  | EmptyString => false
  | String _ hay' => includes needle hay'
  end.

(** [ls.join(sep)] on an array of strings. *)
Definition join (sep : string) (ls : list string) : string :=
  String.concat sep ls.

(** A number: an IEEE 754 double, in the Standard Library's datatype for
    them. *)
Definition Number : Set := SpecFloat.spec_float.

(** The double nearest to an integer: the integer itself up to 2^53 in
    size, as every reading of the clock is. *)
Definition Number_of_Z (z : Z) : Number :=
  SpecFloat.binary_normalize 53 1024 z 0 false.

(** Values that [JSON.parse] produces and [JSON.stringify] consumes.  An
    object lists its own properties in the order the platform enumerates
    them: the array indices in ascending order, then the other keys in
    insertion order. *)
#[local] Unset Elimination Schemes.
Inductive JSValue :=
| JNull
| JBool (b : bool)
| JNum (x : Number)
| JStr (s : string)
| JArr (items : list JSValue)
| JObj (props : list (string * JSValue)).
#[local] Set Elimination Schemes.

(** [o[k]] on a property list ([None] is [undefined]). *)
Fixpoint obj_get (k : string) (o : list (string * JSValue)) : option JSValue :=
  match o with
  | [] => None
  | (k', v) :: o' => if String.eqb k k' then Some v else obj_get k o'
  end.

(** Defining the own property [k], for a key that is not an array index:
    an existing property keeps its place and takes the new value, a new one
    goes last. *)
Fixpoint obj_set (k : string) (v : JSValue) (o : list (string * JSValue))
  : list (string * JSValue) :=
  match o with
  | [] => [(k, v)]
  | (k', v') :: o' =>
      if String.eqb k k' then (k', v) :: o' else (k', v') :: obj_set k v o'
  end.

(** [v[k]] for a value [v]. *)
Definition field (k : string) (v : JSValue) : option JSValue :=
  match v with
  | JObj props => obj_get k props
  | _ => None
  end.

(** [n.toString()] for an integer below 10^21 in size, as every reading
    of the clock and every index is. *)
Definition Z_toString (n : Z) : string :=
  match n with
  | Zneg p => String "-" (NilEmpty.string_of_uint (N.to_uint (Npos p)))
  | _ => NilEmpty.string_of_uint (N.to_uint (Z.to_N n))
  end.

Definition nat_toString (n : nat) : string := Z_toString (Z.of_nat n).

(** The bytes of the code point [n]. *)
Definition utf8 (n : N) : string :=
  let byte (k : N) := ascii_of_N k in
  if (n <? 128)%N then String (byte n) ""
  else if (n <? 2048)%N then
    String (byte (192 + n / 64)%N) (String (byte (128 + n mod 64)%N) "")
  else if (n <? 65536)%N then
    String (byte (224 + n / 4096)%N)
      (String (byte (128 + (n / 64) mod 64)%N) (String (byte (128 + n mod 64)%N) ""))
  else
    String (byte (240 + n / 262144)%N)
      (String (byte (128 + (n / 4096) mod 64)%N)
         (String (byte (128 + (n / 64) mod 64)%N) (String (byte (128 + n mod 64)%N) ""))).

(** A byte that continues the encoding of a character. *)
Definition continuation (c : ascii) : bool :=
  ((128 <=? N_of_ascii c) && (N_of_ascii c <? 192))%N.

(** The characters of a string (its code points), each as a string: what
    iterating over the string yields. *)
Fixpoint code_points (s : string) : list string :=
  match s with
  | EmptyString => []
  | String c r =>
      let chs := code_points r in
      match r, chs with
      | String c' _, ch :: chs' =>
          if continuation c' then String c ch :: chs' else String c "" :: chs
      | _, _ => String c "" :: chs
      end
  end.

(** The code units of a character, each as a string: the character itself,
    or its two surrogates when it lies above U+FFFF. *)
Definition units_of (ch : string) : list string :=
  match ch with
  | String a (String b (String c (String d EmptyString))) =>
      if (240 <=? N_of_ascii a)%N then
        let n := ((N_of_ascii a mod 8) * 262144 + (N_of_ascii b mod 64) * 4096
                  + (N_of_ascii c mod 64) * 64 + N_of_ascii d mod 64 - 65536)%N in
        [utf8 (55296 + n / 1024); utf8 (56320 + n mod 1024)]
      else [ch]
  | _ => [ch]
  end.

(** The code units of a string: what its index properties hold. *)
Definition code_units (s : string) : list string := flat_map units_of (code_points s).

(** Index keys ["i"], ["i+1"], ... paired with the elements. *)
Fixpoint indexed (i : nat) (l : list JSValue) : list (string * JSValue) :=
  match l with
  | [] => []
  | v :: l' => (nat_toString i, v) :: indexed (S i) l'
  end.

(** The own enumerable properties [{...v}] copies: those of an object, the
    indices of an array or of a string, none for the other values. *)
Definition spread_props (v : JSValue) : list (string * JSValue) :=
  match v with
  | JObj props => props
  | JArr items => indexed 0 items
  | JStr s => indexed 0 (map JStr (code_units s))
  | _ => []
  end.

(** The elements [[...v]] iterates over; [None] when [v] is not iterable
    (a [TypeError]). *)
Definition spread_iter (v : JSValue) : option (list JSValue) :=
  match v with
  | JArr items => Some items
  | JStr s => Some (map JStr (code_points s))
  | _ => None
  end.

End JS.
Import JS.

(** ** The platform's JSON object *)

Module JSON.

(** [JSON.parse(s)], [None] when it throws a [SyntaxError], and
    [JSON.stringify(v)].  The empty text is no JSON text. *)
Class Platform := {
  parse : string -> option JSValue;
  stringify : JSValue -> string;
  parse_empty : parse "" = None
}.

End JSON.

(** ** MiniJSON: a JSON written out

    An instance of the platform's [JSON] object, used to run the statements
    on concrete inputs.  It follows ECMA-404 and the [JSON] object of
    ECMA-262 on the alphabet of this development: number literals denote the
    nearest double and numbers are written with the fewest digits that read
    back the same; an object lists its array indices first. *)

Module MiniJSON.

Definition hex_digit (n : N) : ascii :=
  match n with
  | 0%N => "0" | 1%N => "1" | 2%N => "2" | 3%N => "3"
  | 4%N => "4" | 5%N => "5" | 6%N => "6" | 7%N => "7"
  | 8%N => "8" | 9%N => "9" | 10%N => "a" | 11%N => "b"
  | 12%N => "c" | 13%N => "d" | 14%N => "e" | _ => "f"
  end%char.

(** How [JSON.stringify] writes one character of a string: the quote and
    the backslash are escaped, control characters take their short escape
    or a four-digit one, everything else is written as it is. *)
Definition escape_char (c : ascii) : string :=
  if Ascii.eqb c dquote then String backslash (String dquote "")
  else if Ascii.eqb c backslash then String backslash (String backslash "")
  else if Ascii.eqb c "008" then String backslash "b"
  else if Ascii.eqb c "012" then String backslash "f"
  else if Ascii.eqb c "010" then String backslash "n"
  else if Ascii.eqb c "013" then String backslash "r"
  else if Ascii.eqb c "009" then String backslash "t"
  else if (N_of_ascii c <? 32)%N
       then String backslash
              (String "u" (String "0" (String "0"
                 (String (hex_digit (N_of_ascii c / 16))
                    (String (hex_digit (N_of_ascii c mod 16)) "")))))
       else String c "".

(** The code unit of a surrogate that stands on its own, from the second
    and third byte of its encoding. *)
Definition lone_surrogate (a b c : ascii) : option N :=
  if Ascii.eqb a "237" && (160 <=? N_of_ascii b)%N && continuation b && continuation c
  then Some (53248 + (N_of_ascii b mod 64) * 64 + N_of_ascii c mod 64)%N
  else None.

(** A surrogate that stands on its own is written as a four-digit escape. *)
Fixpoint escape (s : string) : string :=
  match s with
  | EmptyString => ""
  | String a t =>
      match t with
      | String b (String c r) =>
          match lone_surrogate a b c with
          | Some u =>
              String backslash
                (String "u" (String (hex_digit (u / 4096))
                   (String (hex_digit ((u / 256) mod 16))
                      (String (hex_digit ((u / 16) mod 16))
                         (String (hex_digit (u mod 16)) (escape r))))))
          | None => escape_char a ++ escape t
          end
      | _ => escape_char a ++ escape t
      end
  end.

Definition quote (s : string) : string :=
  String dquote (escape s ++ String dquote "").

Definition member (stringify : JSValue -> string) (kv : string * JSValue) : string :=
  quote (fst kv) ++ ":" ++ stringify (snd kv).

(** The exact value of a positive finite double [m * 2^e], as a fraction. *)
Definition exact_value (m : positive) (e : Z) : Z * Z :=
  if (0 <=? e)%Z then (Zpos m * 2 ^ e, 1)%Z else (Zpos m, 2 ^ (- e))%Z.

(** The double that [digits * 10^k] denotes: the nearest one, ties to
    even. *)
Definition decimal_value (negative : bool) (digits : N) (k : Z) : Number :=
  match digits with
  | N0 => SpecFloat.S754_zero negative
  | Npos d =>
      if (0 <=? k)%Z
      then SpecFloat.binary_normalize 53 1024
             (if negative then - (Zpos d * 10 ^ k) else Zpos d * 10 ^ k)%Z 0 false
      else SpecFloat.SFdiv 53 1024
             (SpecFloat.S754_finite negative d 0)
             (SpecFloat.S754_finite false (Z.to_pos (10 ^ (- k))) 0)
  end.

(** Whether [s * 10^p] reads back as the double of exact value
    [num / den]. *)
Definition reads_back (num den s p : Z) : bool :=
  match decimal_value false (Z.to_N s) p with
  | SpecFloat.S754_finite _ m e =>
      let (num', den') := exact_value m e in (num' * den =? num * den')%Z
  | _ => false
  end.

(** The least [j] from [j0] on with [num * 10^j >= den]. *)
Fixpoint first_scale (fuel : nat) (j num den : Z) : Z :=
  match fuel with
  | O => j
  | S f => if (den <=? num * 10 ^ j)%Z then j else first_scale f (j + 1)%Z num den
  end.

(** [n] with [10^(n-1) <= num / den < 10^n]. *)
Definition magnitude (num den : Z) : Z :=
  if (den <=? num)%Z
  then Z.of_nat (String.length (Z_toString (num / den)))
  else (1 - first_scale 400 1 num den)%Z.

(** The shortest decimal [s * 10^p] that reads back as [num / den], trying
    [k], [k + 1], ... digits; of the two neighbours with [k] digits the one
    nearer to the value wins, the even one on a tie. *)
Fixpoint shortest (fuel : nat) (k n num den : Z) : Z * Z :=
  let p := (n - k)%Z in
  let a := (if 0 <=? p then num else num * 10 ^ (- p))%Z in
  let b := (if 0 <=? p then den * 10 ^ p else den)%Z in
  let lo := (a / b)%Z in
  let hi := (lo + 1)%Z in
  let twice := (2 * (a mod b))%Z in
  let lo_ok := reads_back num den lo p in
  let hi_ok := reads_back num den hi p in
  match fuel with
  | O => (lo, p)
  | S f =>
      if lo_ok && hi_ok then
        if (twice <? b)%Z then (lo, p)
        else if (b <? twice)%Z then (hi, p)
        else if Z.even lo then (lo, p) else (hi, p)
      else if lo_ok then (lo, p)
      else if hi_ok then (hi, p)
      else shortest f (k + 1)%Z n num den
  end.

Fixpoint zeros (n : nat) : string :=
  match n with
  | O => ""
  | S n' => String "0" (zeros n')
  end.

Fixpoint strip_zeros (rev_digits : list ascii) : list ascii :=
  match rev_digits with
  | c :: r => if Ascii.eqb c "0" then strip_zeros r else rev_digits
  | [] => []
  end.

Definition significant (digits : string) : string :=
  string_of_list_ascii (rev (strip_zeros (rev (list_ascii_of_string digits)))).

(** [Number::toString] on the digits [d] of a positive number whose value
    is [0.d * 10^n]. *)
Definition layout (d : string) (n : Z) : string :=
  let k := Z.of_nat (String.length d) in
  if ((k <=? n) && (n <=? 21))%Z then d ++ zeros (Z.to_nat (n - k))
  else if ((0 <? n) && (n <=? 21))%Z then
    substring 0 (Z.to_nat n) d ++ "." ++ substring (Z.to_nat n) (Z.to_nat (k - n)) d
  else if ((-6 <? n) && (n <=? 0))%Z then "0." ++ zeros (Z.to_nat (- n)) ++ d
  else
    let e := (n - 1)%Z in
    let exponent := (if (0 <=? e)%Z then "e+" else "e-") ++ Z_toString (Z.abs e) in
    match d with
    | String c EmptyString => d ++ exponent
    | String c r => String c ("." ++ r) ++ exponent
    | EmptyString => exponent
    end.

(** How [JSON.stringify] writes a number: [null] when it is not finite. *)
Definition number_text (x : Number) : string :=
  match x with
  | SpecFloat.S754_zero _ => "0"
  | SpecFloat.S754_finite negative m e =>
      let (num, den) := exact_value m e in
      let (s, p) := shortest 17 1 (magnitude num den) num den in
      let digits := Z_toString s in
      (if negative then "-" else "")
      ++ layout (significant digits) (Z.of_nat (String.length digits) + p)
  | _ => "null"
  end.

(** [JSON.stringify(v)]: the compact form, no white space. *)
Fixpoint stringify (v : JSValue) : string :=
  match v with
  | JNull => "null"
  | JBool true => "true"
  | JBool false => "false"
  | JNum x => number_text x
  | JStr s => quote s
  | JArr items => "[" ++ join "," (map stringify items) ++ "]"
  | JObj props => "{" ++ join "," (map (member stringify) props) ++ "}"
  end.

Definition is_ws (c : ascii) : bool :=
  Ascii.eqb c " " || Ascii.eqb c "009" || Ascii.eqb c "010" || Ascii.eqb c "013".

Fixpoint skip_ws (s : string) : string :=
  match s with
  | EmptyString => ""
  | String c r => if is_ws c then skip_ws r else s
  end.

Definition hex_value (c : ascii) : option N :=
  let n := N_of_ascii c in
  if ((48 <=? n) && (n <=? 57))%N then Some (n - 48)%N
  else if ((97 <=? n) && (n <=? 102))%N then Some (n - 87)%N
  else if ((65 <=? n) && (n <=? 70))%N then Some (n - 55)%N
  else None.

Definition hex4 (a b c d : ascii) : option N :=
  match hex_value a, hex_value b, hex_value c, hex_value d with
  | Some x, Some y, Some z, Some t => Some (((x * 16 + y) * 16 + z) * 16 + t)%N
  | _, _, _, _ => None
  end.

(** The character a two-character escape stands for. *)
Definition simple_escape (e : ascii) : option ascii :=
  if Ascii.eqb e dquote then Some dquote
  else if Ascii.eqb e backslash then Some backslash
  else if Ascii.eqb e "/" then Some "/"%char
  else if Ascii.eqb e "b" then Some "008"%char
  else if Ascii.eqb e "f" then Some "012"%char
  else if Ascii.eqb e "n" then Some "010"%char
  else if Ascii.eqb e "r" then Some "013"%char
  else if Ascii.eqb e "t" then Some "009"%char
  else None.

Definition cons_char (c : ascii) (r : option (string * string)) : option (string * string) :=
  match r with
  | Some (s, rest) => Some (String c s, rest)
  | None => None
  end.

Definition prepend (s : string) (r : option (string * string)) : option (string * string) :=
  match r with
  | Some (s', rest) => Some (s ++ s', rest)
  | None => None
  end.

(** The characters of a string literal, read after its opening quote up to
    the closing one, a four-digit escape as the bytes of its code unit.  A
    raw control character is a syntax error. *)
Fixpoint parse_chars (s : string) : option (string * string) :=
  match s with
  | EmptyString => None
  | String c r =>
      if Ascii.eqb c dquote then Some ("", r)
      else if Ascii.eqb c backslash then
        match r with
        | EmptyString => None
        | String e r1 =>
            match simple_escape e with
            | Some ch => cons_char ch (parse_chars r1)
            | None =>
                if Ascii.eqb e "u" then
                  match r1 with
                  | String h1 (String h2 (String h3 (String h4 r2))) =>
                      match hex4 h1 h2 h3 h4 with
                      | Some n => prepend (utf8 n) (parse_chars r2)
                      | None => None
                      end
                  | _ => None
                  end
                else None
            end
        end
      else if (N_of_ascii c <? 32)%N then None
      else cons_char c (parse_chars r)
  end.

(** The character that a high surrogate followed by a low one stand for. *)
Definition surrogate_pair (a b c d e f : ascii) : option string :=
  match lone_surrogate a b c, lone_surrogate d e f with
  | Some hi, Some lo =>
      if ((hi <? 56320) && (56320 <=? lo))%N
      then Some (utf8 (65536 + (hi - 55296) * 1024 + (lo - 56320)))
      else None
  | _, _ => None
  end.

(** Surrogates that follow each other as a pair are one character. *)
Fixpoint pair_up (s : string) : string :=
  match s with
  | EmptyString => ""
  | String a t =>
      match t with
      | String b (String c (String d (String e (String f r)))) =>
          match surrogate_pair a b c d e f with
          | Some ch => ch ++ pair_up r
          | None => String a (pair_up t)
          end
      | _ => s
      end
  end.

(** A string literal after its opening quote. *)
Definition parse_string (s : string) : option (string * string) :=
  match parse_chars s with
  | Some (str, rest) => Some (pair_up str, rest)
  | None => None
  end.

Definition is_digit (c : ascii) : bool :=
  ((48 <=? N_of_ascii c) && (N_of_ascii c <=? 57))%N.

Fixpoint span_digits (s : string) : string * string :=
  match s with
  | EmptyString => ("", "")
  | String c r =>
      if is_digit c
      then let (d, t) := span_digits r in (String c d, t)
      else ("", s)
  end.

Definition leading_zero (ds : string) : bool :=
  match ds with
  | String c (String _ _) => Ascii.eqb c "0"
  | _ => false
  end.

(** The fraction of a number literal, if it has one: a point and at least
    one digit. *)
Definition fraction (s : string) : option (string * string) :=
  match s with
  | String c r =>
      if Ascii.eqb c "." then
        let (fs, r') := span_digits r in
        match fs with
        | EmptyString => None
        | String _ _ => Some (fs, r')
        end
      else Some ("", s)
  | EmptyString => Some ("", "")
  end.

Definition digits_value (ds : string) : option Z :=
  match NilEmpty.uint_of_string ds with
  | Some u => Some (Z.of_N (N.of_uint u))
  | None => None
  end.

(** The exponent of a number literal, if it has one: [e] or [E], a sign if
    any, at least one digit. *)
Definition exponent (s : string) : option (Z * string) :=
  match s with
  | String c r =>
      if Ascii.eqb c "e" || Ascii.eqb c "E" then
        let (negative, r1) :=
          match r with
          | String sign r' =>
              if Ascii.eqb sign "-" then (true, r')
              else if Ascii.eqb sign "+" then (false, r')
              else (false, r)
          | EmptyString => (false, r)
          end in
        let (es, r2) := span_digits r1 in
        match es, digits_value es with
        | String _ _, Some e => Some (if negative then (- e)%Z else e, r2)
        | _, _ => None
        end
      else Some (0%Z, s)
  | EmptyString => Some (0%Z, "")
  end.

(** A number literal after its sign: digits without a leading zero, then
    an optional fraction and an optional exponent. *)
Definition parse_number (negative : bool) (s : string) : option (Number * string) :=
  let (ds, r1) := span_digits s in
  match ds with
  | EmptyString => None
  | String _ _ =>
      if leading_zero ds then None
      else
        match fraction r1 with
        | Some (fs, r2) =>
            match exponent r2, digits_value (ds ++ fs) with
            | Some (e, r3), Some digits =>
                Some (decimal_value negative (Z.to_N digits)
                        (e - Z.of_nat (String.length fs)), r3)
            | _, _ => None
            end
        | None => None
        end
  end.

Fixpoint expect (lit s : string) : option string :=
  match lit with
  | EmptyString => Some s
  | String c lit' =>
      match s with
      | String c' s' => if Ascii.eqb c c' then expect lit' s' else None
      | EmptyString => None
      end
  end.

Definition literal (lit : string) (v : JSValue) (s : string) : option (JSValue * string) :=
  match expect lit s with
  | Some r => Some (v, r)
  | None => None
  end.

(** The array index a key stands for, if it is one: the decimal numeral of
    an integer below 2^32 - 1. *)
Definition index_of (k : string) : option Z :=
  match digits_value k with
  | Some n => if (Z_toString n =? k)%string && (n <? 4294967295)%Z then Some n else None
  | None => None
  end.

(** A new property with the index [n] goes before the first property that
    has a greater index or none. *)
Fixpoint insert_index (n : Z) (k : string) (v : JSValue) (o : list (string * JSValue))
  : list (string * JSValue) :=
  match o with
  | [] => [(k, v)]
  | (k', v') :: o' =>
      match index_of k' with
      | Some n' => if (n <? n')%Z then (k, v) :: o else (k', v') :: insert_index n k v o'
      | None => (k, v) :: o
      end
  end.

(** Defining the own property [k]. *)
Definition define (k : string) (v : JSValue) (o : list (string * JSValue))
  : list (string * JSValue) :=
  match obj_get k o, index_of k with
  | None, Some n => insert_index n k v o
  | _, _ => obj_set k v o
  end.

(** The object a member list defines: a repeated key keeps its first place
    and takes its last value. *)
Definition obj_of_members (ms : list (string * JSValue)) : list (string * JSValue) :=
  fold_left (fun o kv => define (fst kv) (snd kv) o) ms [].

Definition value_step
           (elems : string -> option (list JSValue * string))
           (members : string -> option (list (string * JSValue) * string))
           (s : string) : option (JSValue * string) :=
  match skip_ws s with
  | EmptyString => None
  | String c r =>
      if Ascii.eqb c "n" then literal "ull" JNull r
      else if Ascii.eqb c "t" then literal "rue" (JBool true) r
      else if Ascii.eqb c "f" then literal "alse" (JBool false) r
      else if Ascii.eqb c dquote then
        match parse_string r with
        | Some (str, r') => Some (JStr str, r')
        | None => None
        end
      else if Ascii.eqb c "[" then
        match skip_ws r with
        | String c' r' =>
            if Ascii.eqb c' "]" then Some (JArr [], r')
            else match elems r with
                 | Some (vs, r'') => Some (JArr vs, r'')
                 | None => None
                 end
        | EmptyString => None
        end
      else if Ascii.eqb c "{" then
        match skip_ws r with
        | String c' r' =>
            if Ascii.eqb c' "}" then Some (JObj [], r')
            else match members r with
                 | Some (ms, r'') => Some (JObj (obj_of_members ms), r'')
                 | None => None
                 end
        | EmptyString => None
        end
      else if Ascii.eqb c "-" then
        match parse_number true r with
        | Some (x, r') => Some (JNum x, r')
        | None => None
        end
      else
        match parse_number false (String c r) with
        | Some (x, r') => Some (JNum x, r')
        | None => None
        end
  end.

Definition elems_step
           (value : string -> option (JSValue * string))
           (elems : string -> option (list JSValue * string))
           (s : string) : option (list JSValue * string) :=
  match value s with
  | Some (v, r) =>
      match skip_ws r with
      | String c r' =>
          if Ascii.eqb c "," then
            match elems r' with
            | Some (vs, r'') => Some (v :: vs, r'')
            | None => None
            end
          else if Ascii.eqb c "]" then Some ([v], r')
          else None
      | EmptyString => None
      end
  | None => None
  end.

Definition members_step
           (value : string -> option (JSValue * string))
           (members : string -> option (list (string * JSValue) * string))
           (s : string) : option (list (string * JSValue) * string) :=
  match skip_ws s with
  | String q r =>
      if Ascii.eqb q dquote then
        match parse_string r with
        | Some (k, r1) =>
            match skip_ws r1 with
            | String colon r2 =>
                if Ascii.eqb colon ":" then
                  match value r2 with
                  | Some (v, r3) =>
                      match skip_ws r3 with
                      | String c r4 =>
                          if Ascii.eqb c "," then
                            match members r4 with
                            | Some (ms, r5) => Some ((k, v) :: ms, r5)
                            | None => None
                            end
                          else if Ascii.eqb c "}" then Some ([(k, v)], r4)
                          else None
                      | EmptyString => None
                      end
                  | None => None
                  end
                else None
            | EmptyString => None
            end
        | None => None
        end
      else None
  | EmptyString => None
  end.

(** Recursive descent, bounded by [fuel] calls in depth. *)
Fixpoint parse_value (fuel : nat) (s : string) : option (JSValue * string) :=
  match fuel with
  | O => None
  | S f => value_step (parse_elems f) (parse_members f) s
  end
with parse_elems (fuel : nat) (s : string) : option (list JSValue * string) :=
  match fuel with
  | O => None
  | S f => elems_step (parse_value f) (parse_elems f) s
  end
with parse_members (fuel : nat) (s : string)
  : option (list (string * JSValue) * string) :=
  match fuel with
  | O => None
  | S f => members_step (parse_value f) (parse_members f) s
  end.

(** [JSON.parse(s)]; [None] when it throws a [SyntaxError]. *)
Definition parse (s : string) : option JSValue :=
  match parse_value (S (String.length s)) s with
  | Some (v, r) =>
      match skip_ws r with
      | EmptyString => Some v
      | String _ _ => None
      end
  | None => None
  end.

(** The pair as a platform. *)
Definition platform : JSON.Platform :=
  {| JSON.parse := parse; JSON.stringify := stringify; JSON.parse_empty := eq_refl |}.

End MiniJSON.

(** ** services/geminiService.ts *)

Module GeminiService.

Section WithPlatform.
Context {platform : JSON.Platform}.

(** A content part of a request. *)
Inductive Part :=
| inlineData (mimeType data : string)
| text (t : string).

(** The two shapes [contents] takes in the sources: [{ parts }] and
    [[{ parts }]]. *)
Inductive Contents :=
| Content (parts : list Part)
| ContentList (cs : list (list Part)).

Inductive Schema :=
| STRING
| STRING_enum (values : list string)
| ARRAY (items : Schema)
| OBJECT (properties : list (string * Schema)) (required : list string).

Definition recipeSchema : Schema :=
  OBJECT
    [ ("title", STRING);
      ("description", STRING);
      ("cuisineStyle", STRING);
      ("difficulty", STRING_enum ["Easy"; "Medium"; "Hard"; "Expert"]);
      ("totalTime", STRING);
      ("ingredientsFound", ARRAY STRING);
      ("pantryItemsNeeded", ARRAY STRING);
      ("steps",
        ARRAY (OBJECT [("instruction", STRING); ("tip", STRING); ("duration", STRING)]
                      ["instruction"])) ]
    ["title"; "description"; "difficulty"; "ingredientsFound"; "steps"].

Inductive Modality := AUDIO.

Record Config := mkConfig {
  systemInstruction : option string;
  responseMimeType : option string;
  responseSchema : option Schema;
  thinkingBudget : option Z;
  responseModalities : list Modality;
  voiceName : option string
}.

Definition noConfig : Config := mkConfig None None None None [] None.

Record GenerateContentParameters := mkRequest {
  model : string;
  contents : Contents;
  config : Config
}.

(** The provider's response, as far as the sources read it. *)
Record Blob := mkBlob { blob_mimeType : option string; blob_data : option string }.
Record ResponsePart := mkResponsePart {
  part_inlineData : option Blob;
  part_text : option string
}.
Record ResponseContent := mkContent { content_parts : option (list ResponsePart) }.
Record Candidate := mkCandidate { candidate_content : option ResponseContent }.
Record GenerateContentResponse := mkResponse {
  response_text : option string;
  candidates : option (list Candidate)
}.

(** What the operations read from their surroundings: the build-time
    environment, the imported constant, the remote model, and the platform's
    identifier source and clock ([Date_now i] is the [i]-th reading taken
    during a call, an integer number of milliseconds). *)
Record World := mkWorld {
  API_KEY : option string;
  RECIPE_GENERATION_SYSTEM_INSTRUCTION : string;
  generateContent : GenerateContentParameters -> Completion GenerateContentResponse;
  JSON_parse_error : string -> JSError;
  crypto_randomUUID : option string;
  Date_now : nat -> Z
}.

(** The outcome of an operation together with the requests it sent. *)
Definition Traced (A : Type) : Type := list GenerateContentParameters * Completion A.

Definition getApiKey (w : World) : string := or_else (API_KEY w) "".

(** The directive that enumerates the constraints. *)
Definition directive (constraints : list string) : string :=
  "CRITICAL CONSTRAINTS: The user has the following limitations: "
  ++ join ", " constraints
  ++ ". You MUST strictly adhere to these. Do not use equipment that is restricted (e.g. if 'No Stove', use microwave, oven, or raw prep only).".

Definition constraintText (constraints : list string) : string :=
  if (0 <? List.length constraints)%nat then directive constraints else "".

Definition imagePart (img : string) : Part := inlineData "image/jpeg" img.

Definition audioParts (audioBase64 audioMimeType : option string) : list Part :=
  match audioBase64 with
  | Some (String c r) => [inlineData (or_else audioMimeType "audio/wav") (String c r)]
  | _ => []
  end.

Definition textRequest (textPrompt constraints_text : string) : string :=
  "User text request: " ++ String dquote textPrompt ++ String dquote ". "
  ++ constraints_text ++ " Create a recipe based on this.".

Definition defaultInstruction (constraints_text : string) : string :=
  "I have these ingredients. " ++ constraints_text ++ " Make me something delicious.".

Definition finalPrompt : string :=
  "Analyze the ingredients and the user request. Create a recipe.".

Definition promptPart (audioBase64 textPrompt : option string)
           (constraints : list string) : Part :=
  match textPrompt with
  | Some (String c r) => text (textRequest (String c r) (constraintText constraints))
  | _ =>
      if negb (truthy audioBase64)
      then text (defaultInstruction (constraintText constraints))
      else text (constraintText constraints)
  end.

(** The [parts] array as it stands when the request is sent. *)
Definition buildParts (images : list string) (audioBase64 audioMimeType textPrompt : option string)
           (constraints : list string) : list Part :=
  map imagePart images
  ++ audioParts audioBase64 audioMimeType
  ++ [promptPart audioBase64 textPrompt constraints]
  ++ [text finalPrompt].

Definition recipeRequest (w : World) (parts : list Part) : GenerateContentParameters :=
  mkRequest "gemini-3-pro-preview" (Content parts)
    (mkConfig (Some (RECIPE_GENERATION_SYSTEM_INSTRUCTION w))
              (Some "application/json") (Some recipeSchema) (Some 32768%Z) [] None).

(** [crypto.randomUUID ? crypto.randomUUID() : Date.now().toString()] *)
Definition freshId (w : World) : string :=
  match crypto_randomUUID w with
  | Some uuid => uuid
  | None => Z_toString (Date_now w 0)
  end.

(** The reading [createdAt: Date.now()] takes: the first of the call when
    the identifier came from [crypto.randomUUID], the second otherwise. *)
Definition createdAt (w : World) : Number :=
  Number_of_Z match crypto_randomUUID w with
              | Some _ => Date_now w 0
              | None => Date_now w 1
              end.

(** [{ ...rawRecipe, id, createdAt, constraints }] *)
Definition enrich (w : World) (rawRecipe : JSValue) (constraints : list string) : JSValue :=
  JObj (obj_set "constraints" (JArr (map JStr constraints))
          (obj_set "createdAt" (JNum (createdAt w))
             (obj_set "id" (JStr (freshId w))
                (spread_props rawRecipe)))).

Definition generateRecipeFromInput (w : World)
           (images : list string) (audioBase64 audioMimeType textPrompt : option string)
           (constraints : list string) : Traced JSValue :=
  match getApiKey w with
  | EmptyString => ([], Throw (Error "API Key missing"))
  | String _ _ =>
      let parts := buildParts images audioBase64 audioMimeType textPrompt constraints in
      let request := recipeRequest w parts in
      ([request],
       match generateContent w request with
       | Throw error => Throw error
       | Return response =>
           match response_text response with
           | Some (String c r) =>
               match JSON.parse (String c r) with
               | Some rawRecipe => Return (enrich w rawRecipe constraints)
               | None => Throw (JSON_parse_error w (String c r))
               end
           | _ => Throw (Error "No response generated")
           end
       end)
  end.

(** [response.candidates?.[0]?.content?.parts] *)
Definition firstCandidateParts (response : GenerateContentResponse)
  : option (list ResponsePart) :=
  match candidates response with
  | Some (candidate :: _) =>
      match candidate_content candidate with
      | Some content => content_parts content
      | None => None
      end
  | _ => None
  end.

(** [part.inlineData?.data], kept when truthy. *)
Definition inlinePayload (part : ResponsePart) : option string :=
  match part_inlineData part with
  | Some blob =>
      match blob_data blob with
      | Some (String c r) => Some (String c r)
      | _ => None
      end
  | None => None
  end.

(** The [for ... of] loop of [generateDishImage]. *)
Fixpoint firstInlineData (parts : list ResponsePart) : option string :=
  match parts with
  | [] => None
  | part :: rest =>
      match inlinePayload part with
      | Some data => Some data
      | None => firstInlineData rest
      end
  end.

Definition dishImageRequest (title description : string) : GenerateContentParameters :=
  mkRequest "gemini-2.5-flash-image"
    (Content [text ("A beautiful, appetizing, professional food photo of " ++ title
                    ++ ". " ++ description ++ ". Cinematic lighting, 4k.")])
    noConfig.

Definition generateDishImage (w : World) (title description : string) : Traced string :=
  match getApiKey w with
  | EmptyString => ([], Throw (Error "API Key missing"))
  | String _ _ =>
      let request := dishImageRequest title description in
      ([request],
       match generateContent w request with
       | Throw error => Throw error
       | Return response =>
           match firstInlineData
                   (match firstCandidateParts response with
                    | Some parts => parts
                    | None => []
                    end) with
           | Some data => Return data
           | None => Throw (Error "No image data found in response")
           end
       end)
  end.

Definition ttsRequest (narration : string) : GenerateContentParameters :=
  mkRequest "gemini-2.5-flash-preview-tts"
    (ContentList [[text narration]])
    (mkConfig None None None None [AUDIO] (Some "Kore")).

(** [response.candidates?.[0]?.content?.parts?.[0]?.inlineData?.data] *)
Definition audioData (response : GenerateContentResponse) : option string :=
  match firstCandidateParts response with
  | Some (part :: _) =>
      match part_inlineData part with
      | Some blob => blob_data blob
      | None => None
      end
  | _ => None
  end.

Definition generateTTS (w : World) (narration : string) : Traced string :=
  match getApiKey w with
  | EmptyString => ([], Throw (Error "API Key missing"))
  | String _ _ =>
      let request := ttsRequest narration in
      ([request],
       match generateContent w request with
       | Throw error => Throw error
       | Return response =>
           match audioData response with
           | Some (String c r) => Return (String c r)
           | _ => Throw (Error "No audio generated")
           end
       end)
  end.

End WithPlatform.

End GeminiService.

(** ** App.tsx: the state controller *)

Module App.
Import GeminiService.

Section WithPlatform.
Context {platform : JSON.Platform}.

Inductive AppState :=
| LANDING | ABOUT | COOKBOOK | IDLE | RECORDING | PROCESSING | ERROR | RECIPE_VIEW.

(** The capture bundle handed over by the capture screen. *)
Record CaptureData := mkCaptureData {
  images : list string;
  audio : option string;
  audioMimeType : option string;
  constraints : option (list string)
}.

(** The five [useState] cells.  [history] holds whatever [JSON.parse] gave
    at start-up, hence a value rather than a list. *)
Record State := mkState {
  appState : AppState;
  recipe : option JSValue;
  history : JSValue;
  error : option string;
  errorDetails : option string
}.

Definition initialState : State := mkState LANDING None (JArr []) None None.

Definition setAppState (a : AppState) (c : State) : State :=
  mkState a (recipe c) (history c) (error c) (errorDetails c).
Definition setRecipe (r : option JSValue) (c : State) : State :=
  mkState (appState c) r (history c) (error c) (errorDetails c).
Definition setHistory (h : JSValue) (c : State) : State :=
  mkState (appState c) (recipe c) h (error c) (errorDetails c).
Definition setError (e : option string) (c : State) : State :=
  mkState (appState c) (recipe c) (history c) e (errorDetails c).
Definition setErrorDetails (d : option string) (c : State) : State :=
  mkState (appState c) (recipe c) (history c) (error c) d.

(** [localStorage]: the stored items, most recently set key first. *)
Definition Storage := list (string * string).

Fixpoint getItem (k : string) (st : Storage) : option string :=
  match st with
  | [] => None
  | (k', v) :: st' => if String.eqb k k' then Some v else getItem k st'
  end.

Definition setItem (k v : string) (st : Storage) : Storage :=
  (k, v) :: filter (fun kv => negb (String.eqb k (fst kv))) st.

(** What the browser decides: whether [localStorage.setItem] accepts a
    value (it throws when the quota is exceeded or storage is disabled), and
    the [TypeError] raised by spreading a value that is not iterable. *)
Record Browser := mkBrowser {
  setItem_error : string -> string -> option JSError;
  not_iterable : JSError
}.

Definition historyKey : string := "chefMuseHistory".

(** The mount effect: load the history; a parse failure is logged and the
    state is left as it is. *)
Definition loadHistory (st : Storage) (c : State) : State :=
  match getItem historyKey st with
  | Some (String a r) =>
      match JSON.parse (String a r) with
      | Some saved => setHistory saved c
      | None => c
      end
  | _ => c
  end.

(** [saveToHistory]; the third component is the exception it ends with, if
    any. *)
Definition saveToHistory (b : Browser) (newRecipe : JSValue) (c : State) (st : Storage)
  : State * Storage * option JSError :=
  match spread_iter (history c) with
  | None => (c, st, Some (not_iterable b))
  | Some old =>
      let newHistory := JArr (newRecipe :: old) in
      let c' := setHistory newHistory c in
      let serialized := JSON.stringify newHistory in
      match setItem_error b historyKey serialized with
      | Some e => (c', st, Some e)
      | None => (c', setItem historyKey serialized st, None)
      end
  end.

Definition classify (errorMessage : string) : string * string :=
  if includes "API Key" errorMessage then
    ("Configuration Error",
     "The API Key is missing. Please check the environment configuration.")
  else if includes "No response generated" errorMessage
          || includes "Candidate was blocked" errorMessage then
    ("Inspiration blocked",
     "The Muse couldn't understand the request or it was flagged. Try different wording.")
  else if includes "fetch" errorMessage || includes "network" errorMessage then
    ("Connection Lost",
     "Please check your internet connection and try again.")
  else if includes "JSON" errorMessage then
    ("Creative Confusion",
     "The Muse hallucinated an invalid format. Trying again usually fixes this.")
  else
    ("The Muse was silent.",
     "We couldn't generate a recipe. Please try again.").

Definition handleError (e : JSError) (c : State) : State :=
  let errorMessage := or_else (message e) "" in
  let (msg, details) := classify errorMessage in
  setAppState ERROR (setErrorDetails (Some details) (setError (Some msg) c)).

(** What follows the [await] in [handleCapture] and [handleTextGeneration]. *)
Definition afterGeneration (b : Browser) (outcome : Completion JSValue)
           (c : State) (st : Storage) : State * Storage :=
  match outcome with
  | Return generatedRecipe =>
      match saveToHistory b generatedRecipe (setRecipe (Some generatedRecipe) c) st with
      | (c', st', None) => (setAppState RECIPE_VIEW c', st')
      | (c', st', Some e) => (handleError e c', st')
      end
  | Throw e => (handleError e c, st)
  end.

Definition beginProcessing (c : State) : State :=
  setErrorDetails None (setError None (setAppState PROCESSING c)).

Definition captureOutcome (w : World) (data : CaptureData) : Completion JSValue :=
  snd (generateRecipeFromInput w (images data) (audio data) (audioMimeType data) None
         (match constraints data with Some cs => cs | None => [] end)).

Definition textOutcome (w : World) (prompt : string) : Completion JSValue :=
  snd (generateRecipeFromInput w [] None None (Some prompt) []).

Definition handleCapture (w : World) (b : Browser) (data : CaptureData)
           (c : State) (st : Storage) : State * Storage :=
  afterGeneration b (captureOutcome w data) (beginProcessing c) st.

Definition handleTextGeneration (w : World) (b : Browser) (prompt : string)
           (c : State) (st : Storage) : State * Storage :=
  afterGeneration b (textOutcome w prompt) (beginProcessing c) st.

Definition handleReset (c : State) : State :=
  setErrorDetails None (setError None (setRecipe None (setAppState IDLE c))).
Definition handleStart (c : State) : State := setAppState IDLE c.
Definition handleAbout (c : State) : State := setAppState ABOUT c.
Definition handleCookbook (c : State) : State := setAppState COOKBOOK c.
Definition handleSelectRecipe (selected : JSValue) (c : State) : State :=
  setAppState RECIPE_VIEW (setRecipe (Some selected) c).
Definition handleBackToLanding (c : State) : State := setAppState LANDING c.

(** What can happen to the mounted controller. *)
Inductive Event :=
| Start
| About
| OpenCookbook
| BackToLanding
| Reset
| SelectRecipe (selected : JSValue)
| Capture (w : World) (b : Browser) (data : CaptureData)
| TextGeneration (w : World) (b : Browser) (prompt : string).

Definition step (ev : Event) (c : State) (st : Storage) : State * Storage :=
  match ev with
  | Start => (handleStart c, st)
  | About => (handleAbout c, st)
  | OpenCookbook => (handleCookbook c, st)
  | BackToLanding => (handleBackToLanding c, st)
  | Reset => (handleReset c, st)
  | SelectRecipe selected => (handleSelectRecipe selected c, st)
  | Capture w b data => handleCapture w b data c st
  | TextGeneration w b prompt => handleTextGeneration w b prompt c st
  end.

(** The outcome of the generation an event runs, if it runs one. *)
Definition generation (ev : Event) : option (Completion JSValue) :=
  match ev with
  | Capture w _ data => Some (captureOutcome w data)
  | TextGeneration w _ prompt => Some (textOutcome w prompt)
  | _ => None
  end.

Fixpoint run (evs : list Event) (c : State) (st : Storage) : State * Storage :=
  match evs with
  | [] => (c, st)
  | ev :: evs' => let (c', st') := step ev c st in run evs' c' st'
  end.

(** A session: the page is mounted over whatever the storage holds, then
    events follow. *)
Definition session (st0 : Storage) (evs : list Event) : State * Storage :=
  run evs (loadHistory st0 initialState) st0.

(** The classification as the design description words it, to compare
    [classify] with: an ordered table of tests on the message, each with the
    title and detail it selects, read by first match. *)
Definition classification_table : list ((string -> bool) * (string * string)) :=
  [ (includes "API Key",
     ("Configuration Error",
      "The API Key is missing. Please check the environment configuration."));
    (fun m => includes "No response generated" m || includes "Candidate was blocked" m,
     ("Inspiration blocked",
      "The Muse couldn't understand the request or it was flagged. Try different wording."));
    (fun m => includes "fetch" m || includes "network" m,
     ("Connection Lost",
      "Please check your internet connection and try again."));
    (includes "JSON",
     ("Creative Confusion",
      "The Muse hallucinated an invalid format. Trying again usually fixes this.")) ].

Definition first_match (m : string) : string * string :=
  match find (fun row => fst row m) classification_table with
  | Some row => snd row
  | None => ("The Muse was silent.", "We couldn't generate a recipe. Please try again.")
  end.

End WithPlatform.

End App.

Import GeminiService App.

(** ** App.tsx: what the component renders *)

Module View.
Import GeminiService App.

(** Truthiness of a value, as [recipe && ...] tests it. *)
Definition truthy_value (v : JSValue) : bool :=
  match v with
  | JNull => false
  | JBool b => b
  | JNum x =>
      match x with
      | SpecFloat.S754_zero _ | SpecFloat.S754_nan => false
      | _ => true
      end
  | JStr s => negb (s =? "")%string
  | JArr _ => true
  | JObj _ => true
  end.

(** The children of [<main>]: the pages with the props that depend on the
    state.  The camera block carries the processing overlay when
    [isProcessing] holds.  [NumberText] is the text React writes when a
    [&&] chain ends on a falsy number (a zero or [NaN]). *)
Inductive Screen :=
| LandingPage
| AboutPage
| Cookbook (recipes : JSValue)
| ErrorPanel (title details : option string)
| CameraCapture (isProcessing : bool)
| RecipeView (shown : JSValue)
| NumberText (x : Number).

Definition render (c : State) : list Screen :=
  (match appState c with LANDING => [LandingPage] | _ => [] end)
  ++ (match appState c with ABOUT => [AboutPage] | _ => [] end)
  ++ (match appState c with COOKBOOK => [Cookbook (history c)] | _ => [] end)
  ++ (match appState c with
      | ERROR => [ErrorPanel (error c) (errorDetails c)]
      | IDLE | RECORDING => [CameraCapture false]
      | PROCESSING => [CameraCapture true]
      | _ => []
      end)
  ++ (match appState c, recipe c with
      | RECIPE_VIEW, Some r =>
          if truthy_value r then [RecipeView r]
          else match r with JNum x => [NumberText x] | _ => [] end
      | _, _ => []
      end).

End View.

Import View.

(** * Properties, on every platform *)

Section Properties.
Context {platform : JSON.Platform}.

(** ** Notions used to state properties of sessions *)

(** The browser accepts every storage write. *)
Definition accepts (b : Browser) : Prop :=
  forall k v, setItem_error b k v = None.

Definition writes_accepted (ev : Event) : Prop :=
  match ev with
  | Capture _ b _ => accepts b
  | TextGeneration _ b _ => accepts b
  | _ => True
  end.

(** The recipes that the generations of a sequence of events returned, in
    the order of the events. *)
Definition generated (evs : list Event) : list JSValue :=
  flat_map (fun ev => match generation ev with
                      | Some (Return r) => [r]
                      | _ => []
                      end) evs.

(** The cookbook hands over a truthy entry when a recipe is selected. *)
Definition selection_truthy (ev : Event) : Prop :=
  match ev with
  | SelectRecipe selected => truthy_value selected = true
  | _ => True
  end.

Definition no_payload (part : ResponsePart) : Prop := inlinePayload part = None.

(** ** Sample inputs *)

Definition sampleWorld : World :=
  mkWorld (Some "key") "You are a chef."
          (fun _ => Return (mkResponse (Some "{}") None))
          (fun _ => Error "Unexpected token in JSON")
          (Some "3f0c") (fun i => (1700000000000 + Z.of_nat i)%Z).

Definition keylessWorld : World :=
  mkWorld None "You are a chef."
          (fun _ => Return (mkResponse (Some "{}") None))
          (fun _ => Error "Unexpected token in JSON")
          (Some "3f0c") (fun i => (1700000000000 + Z.of_nat i)%Z).

Definition sampleBrowser : Browser := mkBrowser (fun _ _ => None) (Error "history is not iterable").

Definition sampleCapture : CaptureData := mkCaptureData ["img"] None None (Some ["No Stove"]).

Definition viewingState : State :=
  mkState RECIPE_VIEW (Some (JObj [("title", JStr "Soup")])) (JArr [JObj [("title", JStr "Soup")]])
          None None.

Definition textThenAudio : GenerateContentResponse :=
  mkResponse None
    (Some [mkCandidate
             (Some (mkContent
                      (Some [mkResponsePart None (Some "Here is the narration.");
                             mkResponsePart (Some (mkBlob (Some "audio/L16") (Some "UklGRg")))
                                            None])))]).

Definition speechWorld : World :=
  mkWorld (Some "key") "You are a chef." (fun _ => Return textThenAudio)
          (fun _ => Error "Unexpected token in JSON")
          (Some "3f0c") (fun i => (1700000000000 + Z.of_nat i)%Z).

Definition textThenImage : GenerateContentResponse :=
  mkResponse (Some "Here is your dish.")
    (Some [mkCandidate
             (Some (mkContent
                      (Some [mkResponsePart None (Some "Here is your dish.");
                             mkResponsePart (Some (mkBlob (Some "image/png") (Some ""))) None;
                             mkResponsePart (Some (mkBlob (Some "image/png") (Some "iVBORw0KGgo")))
                                            None;
                             mkResponsePart (Some (mkBlob (Some "image/png") (Some "AAAA")))
                                            None])))]).

Definition imageWorld : World :=
  mkWorld (Some "key") "You are a chef." (fun _ => Return textThenImage)
          (fun _ => Error "Unexpected token in JSON")
          (Some "3f0c") (fun i => (1700000000000 + Z.of_nat i)%Z).

Definition offlineWorld : World :=
  mkWorld (Some "key") "You are a chef." (fun _ => Throw (Error "Failed to fetch"))
          (fun _ => Error "Unexpected token in JSON")
          None (fun i => (1700000000000 + Z.of_nat i)%Z).

Definition silentWorld : World :=
  mkWorld (Some "key") "You are a chef." (fun _ => Return (mkResponse (Some "") None))
          (fun _ => Error "Unexpected token in JSON")
          (Some "3f0c") (fun i => (1700000000000 + Z.of_nat i)%Z).

Definition nullWorld : World :=
  mkWorld (Some "key") "You are a chef." (fun _ => Return (mkResponse (Some "null") None))
          (fun _ => Error "Unexpected token in JSON")
          (Some "3f0c") (fun i => (1700000000000 + Z.of_nat i)%Z).

Definition laterWorld : World :=
  mkWorld (Some "key") "You are a chef." (fun _ => Throw (Error "Failed to fetch"))
          (fun _ => Error "Unexpected token in JSON")
          None (fun i => (1700000000042 + Z.of_nat i)%Z).

Definition fullBrowser : Browser :=
  mkBrowser (fun _ _ => Some (Error "The quota has been exceeded."))
            (Error "history is not iterable").

(** A text between double quotes. *)
Definition quoted (s : string) : string := String dquote s ++ String dquote "".

(** A response text: an object with a title and a total time. *)
Definition soupText : string :=
  "{" ++ quoted "title" ++ ":" ++ quoted "Soup" ++ ","
  ++ quoted "totalTime" ++ ":" ++ quoted "20 min" ++ "}".

Definition stewText : string :=
  "{" ++ quoted "title" ++ ":" ++ quoted "Stew" ++ ","
  ++ quoted "totalTime" ++ ":" ++ quoted "2 h" ++ "}".

(** Two worlds without [crypto.randomUUID], their clocks reading the same. *)
Definition soupWorld : World :=
  mkWorld (Some "key") "You are a chef." (fun _ => Return (mkResponse (Some soupText) None))
          (fun _ => Error "Unexpected token in JSON")
          None (fun i => (1700000000000 + Z.of_nat i)%Z).

Definition stewWorld : World :=
  mkWorld (Some "key") "You are a chef." (fun _ => Return (mkResponse (Some stewText) None))
          (fun _ => Error "Unexpected token in JSON")
          None (fun i => (1700000000000 + Z.of_nat i)%Z).

(** A response text with a number literal beyond the range of the doubles. *)
Definition overflowText : string :=
  "{" ++ quoted "title" ++ ":" ++ quoted "Soup" ++ ","
  ++ quoted "servings" ++ ":1e999}".


(** ** Worked examples *)

Example classify_missing_key :
  classify "API Key missing" =
  ("Configuration Error",
   "The API Key is missing. Please check the environment configuration.").
Proof. reflexivity. Qed.

Example classify_order :
  fst (classify "Failed to fetch: invalid JSON") = "Connection Lost".
Proof. reflexivity. Qed.

Example classify_other : fst (classify "quota exceeded") = "The Muse was silent.".
Proof. reflexivity. Qed.

Example no_stove_parts :
  buildParts ["img"] None None None ["No Stove"; "Vegan"]
  = [ inlineData "image/jpeg" "img";
      text "I have these ingredients. CRITICAL CONSTRAINTS: The user has the following limitations: No Stove, Vegan. You MUST strictly adhere to these. Do not use equipment that is restricted (e.g. if 'No Stove', use microwave, oven, or raw prep only). Make me something delicious.";
      text "Analyze the ingredients and the user request. Create a recipe." ].
Proof. reflexivity. Qed.

(** ** String facts *)



Lemma length_append (a b : string) :
  String.length (a ++ b) = String.length a + String.length b.
Proof. induction a as [|x a IH]; simpl; [reflexivity | now rewrite IH]. Qed.

Lemma prefix_iff (p s : string) :
  String.prefix p s = true <-> exists rest, s = p ++ rest.
Proof.
  revert s; induction p as [|x p IH]; intros s.
  - split; [intros _; exists s; reflexivity | intros _; now destruct s].
  - destruct s as [|y s]; simpl.
    + split; [discriminate | intros [rest H]; discriminate].
    + destruct (ascii_dec x y) as [->|Hxy].
      * rewrite IH. split; intros [rest H]; exists rest; [now rewrite H | now injection H].
      * split; [discriminate | intros [rest H]; congruence].
Qed.

(** [includes] is the substring test. *)
Lemma includes_iff (needle hay : string) :
  includes needle hay = true <-> exists before after, hay = before ++ needle ++ after.
Proof.
  induction hay as [|c hay IH].
  - change (includes needle "") with (String.prefix needle "" || false).
    rewrite orb_false_r, prefix_iff. split.
    + intros [rest H]. exists "", rest. exact H.
    + intros [before [after H]]. destruct before; [now exists after | discriminate].
  - cbn [includes]. rewrite orb_true_iff, IH, prefix_iff. split.
    + intros [[rest H] | [before [after H]]].
      * exists "", rest. exact H.
      * exists (String c before), after. simpl. now rewrite H.
    + intros [before [after H]]. destruct before as [|b before].
      * left. now exists after.
      * right. simpl in H. injection H as _ H. now exists before, after.
Qed.

(** ** The assembled request *)

Lemma getApiKey_present (w : World) :
  truthy (API_KEY w) = true -> exists c r, getApiKey w = String c r.
Proof.
  unfold getApiKey. destruct (API_KEY w) as [[|c r]|]; simpl; try discriminate.
  intros _. now exists c, r.
Qed.

Lemma getApiKey_absent (w : World) :
  truthy (API_KEY w) = false -> getApiKey w = "".
Proof.
  unfold getApiKey. now destruct (API_KEY w) as [[|c r]|].
Qed.

(** With a credential, the operation sends exactly one request, whose parts
    are those of [buildParts]. *)
Lemma generateRecipe_sends (w : World) images audioBase64 audioMimeType textPrompt constraints :
  truthy (API_KEY w) = true ->
  fst (generateRecipeFromInput w images audioBase64 audioMimeType textPrompt constraints)
  = [recipeRequest w (buildParts images audioBase64 audioMimeType textPrompt constraints)].
Proof.
  intros H. destruct (getApiKey_present w H) as [c [r Hk]].
  unfold generateRecipeFromInput. now rewrite Hk.
Qed.


(** C1: a call with exactly three images, no audio and no text prompt sends
    one request whose parts are the three images, each tagged image/jpeg,
    then the default instruction, then the final analysis instruction, and
    nothing else. *)
Theorem three_images_request (w : World) (i1 i2 i3 : string)
        (audioBase64 audioMimeType textPrompt : option string) (constraints : list string) :
  truthy (API_KEY w) = true ->
  truthy audioBase64 = false ->
  truthy textPrompt = false ->
  exists request,
    fst (generateRecipeFromInput w [i1; i2; i3] audioBase64 audioMimeType textPrompt constraints)
    = [request]
    /\ contents request =
       Content
         [ inlineData "image/jpeg" i1;
           inlineData "image/jpeg" i2;
           inlineData "image/jpeg" i3;
           text ("I have these ingredients. " ++ constraintText constraints
                 ++ " Make me something delicious.");
           text "Analyze the ingredients and the user request. Create a recipe." ].
Proof.
  intros Hkey Haudio Htext.
  eexists. split; [now apply generateRecipe_sends|].
  destruct audioBase64 as [[|a0 a]|]; try discriminate;
    destruct textPrompt as [[|t0 t]|]; try discriminate; reflexivity.
Qed.





(** C4: without a credential each of the three operations fails with
    "API Key missing" and sends no request. *)
Theorem missing_key_fails_before_any_request (w : World) :
  truthy (API_KEY w) = false ->
  (forall images audioBase64 audioMimeType textPrompt constraints,
      generateRecipeFromInput w images audioBase64 audioMimeType textPrompt constraints
      = ([], Throw (Error "API Key missing")))
  /\ (forall title description,
         generateDishImage w title description = ([], Throw (Error "API Key missing")))
  /\ (forall narration,
         generateTTS w narration = ([], Throw (Error "API Key missing"))).
Proof.
  intros H. apply getApiKey_absent in H.
  unfold generateRecipeFromInput, generateDishImage, generateTTS.
  rewrite H. repeat split.
Qed.

(** ** Error classification and the failure transition *)

(** C5: the classifier tests the message for the credential, the empty or
    blocked response, the network and the JSON substrings in that order and
    takes the title and detail of the first test that holds, the generic pair
    when none does; the handler stores that pair and enters the error
    state. *)
Theorem handleError_first_match (e : JSError) (c : State) :
  error (handleError e c) = Some (fst (first_match (or_else (message e) "")))
  /\ errorDetails (handleError e c) = Some (snd (first_match (or_else (message e) "")))
  /\ appState (handleError e c) = ERROR
  /\ map snd classification_table =
     [ ("Configuration Error",
        "The API Key is missing. Please check the environment configuration.");
       ("Inspiration blocked",
        "The Muse couldn't understand the request or it was flagged. Try different wording.");
       ("Connection Lost",
        "Please check your internet connection and try again.");
       ("Creative Confusion",
        "The Muse hallucinated an invalid format. Trying again usually fixes this.") ].
Proof.
  unfold handleError, classify, first_match, classification_table.
  set (m := or_else (message e) ""). cbn [find fst snd map].
  destruct (includes "API Key" m); [repeat split|].
  destruct (includes "No response generated" m || includes "Candidate was blocked" m);
    [repeat split|].
  destruct (includes "fetch" m || includes "network" m); [repeat split|].
  destruct (includes "JSON" m); repeat split.
Qed.

Lemma handleError_frame (e : JSError) (c : State) :
  handleError e c
  = mkState ERROR (recipe c) (history c)
            (error (handleError e c)) (errorDetails (handleError e c)).
Proof.
  unfold handleError. destruct (classify (or_else (message e) "")). reflexivity.
Qed.

Lemma handleError_history (e : JSError) (c : State) :
  history (handleError e c) = history c.
Proof. now rewrite handleError_frame. Qed.

(** An event that runs a generation goes through [afterGeneration] with
    the outcome of that generation. *)
Lemma generation_step (ev : Event) (c : State) (st : Storage)
      (outcome : Completion JSValue) :
  generation ev = Some outcome ->
  exists b, step ev c st = afterGeneration b outcome (beginProcessing c) st.
Proof.
  destruct ev; cbn [generation step]; try discriminate; intros [= H]; exists b;
    unfold handleCapture, handleTextGeneration; rewrite H; reflexivity.
Qed.

Lemma quiet_step (ev : Event) (c : State) (st : Storage) :
  generation ev = None ->
  history (fst (step ev c st)) = history c /\ snd (step ev c st) = st.
Proof.
  destruct ev; cbn [generation]; try discriminate; intros _; split; reflexivity.
Qed.

Lemma failed_generation_step (ev : Event) (c : State) (st : Storage) (e : JSError) :
  generation ev = Some (Throw e) ->
  step ev c st = (handleError e (beginProcessing c), st).
Proof.
  intros H. destruct (generation_step ev c st _ H) as [b ->]. reflexivity.
Qed.

(** What [saveToHistory] leaves behind. *)
Lemma saveToHistory_cases (b : Browser) (newRecipe : JSValue) (c : State) (st : Storage) :
  (spread_iter (history c) = None
   /\ exists e, saveToHistory b newRecipe c st = (c, st, Some e))
  \/ (exists old,
         spread_iter (history c) = Some old
         /\ ((exists e, saveToHistory b newRecipe c st
                        = (setHistory (JArr (newRecipe :: old)) c, st, Some e))
             \/ saveToHistory b newRecipe c st
                = (setHistory (JArr (newRecipe :: old)) c,
                   setItem historyKey (JSON.stringify (JArr (newRecipe :: old))) st,
                   None))).
Proof.
  unfold saveToHistory. destruct (spread_iter (history c)) as [old|].
  - right. exists old. split; [reflexivity|].
    destruct (setItem_error b historyKey _) as [e|]; [left; now exists e | now right].
  - left. split; [reflexivity | now eexists].
Qed.

(** C10: the failure handler rewrites the error message, the error details
    and the app state and nothing else; after a failed generation the current
    recipe, the history and the storage are what they were. *)
Theorem failure_keeps_recipe (ev : Event) (c : State) (st : Storage) (e : JSError) :
  generation ev = Some (Throw e) ->
  (forall c0, handleError e c0
              = mkState ERROR (recipe c0) (history c0)
                        (error (handleError e c0)) (errorDetails (handleError e c0)))
  /\ fst (step ev c st)
     = mkState ERROR (recipe c) (history c)
               (error (fst (step ev c st))) (errorDetails (fst (step ev c st)))
  /\ snd (step ev c st) = st.
Proof.
  intros H. split; [intros c0; apply handleError_frame|].
  rewrite (failed_generation_step ev c st e H). cbn [fst snd].
  split; [|reflexivity]. apply (handleError_frame e (beginProcessing c)).
Qed.

(** ** History *)

(** C6: an event changes the history only when it runs a generation that
    succeeds, and then by putting the new recipe in front; the storage is
    then either rewritten with the serialized new history or left alone.
    After a failed generation, and after every other event, the history in
    memory and the storage are unchanged. *)
Theorem history_changes_only_by_prepending (ev : Event) (c : State) (st : Storage) :
  match generation ev with
  | Some (Return newRecipe) =>
      (history (fst (step ev c st)) = history c
       \/ exists old, spread_iter (history c) = Some old
                      /\ history (fst (step ev c st)) = JArr (newRecipe :: old))
      /\ (snd (step ev c st) = st
          \/ exists old, spread_iter (history c) = Some old
                         /\ history (fst (step ev c st)) = JArr (newRecipe :: old)
                         /\ snd (step ev c st)
                            = setItem historyKey (JSON.stringify (JArr (newRecipe :: old))) st)
  | Some (Throw e) =>
      history (fst (step ev c st)) = history c /\ snd (step ev c st) = st
  | None =>
      history (fst (step ev c st)) = history c /\ snd (step ev c st) = st
  end.
Proof.
  destruct (generation ev) as [[newRecipe | e]|] eqn:Hgen.
  - destruct (generation_step ev c st _ Hgen) as [b ->].
    unfold afterGeneration.
    destruct (saveToHistory_cases b newRecipe (setRecipe (Some newRecipe) (beginProcessing c)) st)
      as [[_ [e ->]] | [old [Hold [[e ->] | ->]]]]; cbn [fst snd];
      rewrite ?handleError_history; cbn [history setAppState setHistory].
    + split; left; reflexivity.
    + split; [right; now exists old | left; reflexivity].
    + split; right; exists old; repeat split; exact Hold.
  - rewrite (failed_generation_step ev c st e Hgen). cbn [fst snd].
    rewrite handleError_history. split; reflexivity.
  - now apply quiet_step.
Qed.

(** ** Speech *)

(** C7, as stated, fails.  When the audio payload comes in the second part of
    the response, a part of the response holds an audio payload and yet the
    operation fails with "No audio generated". *)
Lemma speech_counterexample :
  generateContent speechWorld (ttsRequest "Stir.") = Return textThenAudio
  /\ exists parts,
       firstCandidateParts textThenAudio = Some parts
       /\ snd (generateTTS speechWorld "Stir.")
          <> match firstInlineData parts with
             | Some payload => Return payload
             | None => Throw (Error "No audio generated")
             end.
Proof.
  split; [reflexivity|]. eexists. split; [reflexivity|]. discriminate.
Qed.

(** C7 (amended): the operation returns the audio payload of the first
    content part of the first candidate when that part carries a non-empty
    one, and fails with "No audio generated" otherwise; the parts after the
    first play no role. *)
Theorem speech_reads_first_part (w : World) (narration : string)
        (response : GenerateContentResponse) :
  truthy (API_KEY w) = true ->
  generateContent w (ttsRequest narration) = Return response ->
  snd (generateTTS w narration)
  = match firstCandidateParts response with
    | Some (part :: _) =>
        match inlinePayload part with
        | Some payload => Return payload
        | None => Throw (Error "No audio generated")
        end
    | _ => Throw (Error "No audio generated")
    end.
Proof.
  intros Hkey Hresp. destruct (getApiKey_present w Hkey) as [c [r Hk]].
  unfold generateTTS. rewrite Hk. cbn [snd]. rewrite Hresp.
  unfold audioData, inlinePayload.
  destruct (firstCandidateParts response) as [[|part rest]|]; try reflexivity.
  destruct (part_inlineData part) as [blob|]; [|reflexivity].
  now destruct (blob_data blob) as [[|d0 d]|].
Qed.

(** ** Decimal numerals *)

(** The decimal digits of a number: not empty, no leading zero. *)
Lemma to_uint_shape (n : N) :
  N.to_uint n = Decimal.D0 Decimal.Nil
  \/ (N.to_uint n <> Decimal.Nil /\ forall u, N.to_uint n <> Decimal.D0 u).
Proof.
  assert (H : N.to_uint n = Decimal.unorm (N.to_uint n)).
  { rewrite <- (DecimalN.Unsigned.to_of (N.to_uint n)), DecimalN.Unsigned.of_to.
    reflexivity. }
  rewrite H. unfold Decimal.unorm.
  destruct (Decimal.nzhead (N.to_uint n)) eqn:E; try (right; split; discriminate).
  - now left.
  - exfalso. now apply (DecimalFacts.nzhead_nonzero (N.to_uint n) u).
Qed.

Lemma digits_not_empty (n : N) :
  exists c r, NilEmpty.string_of_uint (N.to_uint n) = String c r /\ c <> "-"%char.
Proof.
  destruct (to_uint_shape n) as [-> | [Hnil _]].
  - exists "0"%char, "". split; [reflexivity | discriminate].
  - destruct (N.to_uint n); try contradiction; simpl; eexists _, _;
      (split; [reflexivity | discriminate]).
Qed.

Lemma digits_inj (n m : N) :
  NilEmpty.string_of_uint (N.to_uint n) = NilEmpty.string_of_uint (N.to_uint m) -> n = m.
Proof.
  intros H. apply (f_equal NilEmpty.uint_of_string) in H. rewrite !NilEmpty.usu in H.
  injection H as H. now apply DecimalN.Unsigned.to_uint_inj.
Qed.

Lemma digits_not_minus (n : N) (r : string) :
  NilEmpty.string_of_uint (N.to_uint n) <> String "-" r.
Proof.
  destruct (digits_not_empty n) as [c [r' [E D]]]. rewrite E. intros [= -> _].
  now apply D.
Qed.

Lemma Z_toString_inj (a b : Z) : Z_toString a = Z_toString b -> a = b.
Proof.
  assert (Hnonneg : forall z, (0 <= z)%Z ->
                              Z_toString z = NilEmpty.string_of_uint (N.to_uint (Z.to_N z))).
  { intros [|p|p] Hz; try reflexivity. lia. }
  destruct (Z.neg_nonneg_cases a) as [Ha | Ha], (Z.neg_nonneg_cases b) as [Hb | Hb].
  - destruct a as [|p|p], b as [|q|q]; try lia. unfold Z_toString.
    intros [= H]. apply (digits_inj (Npos p) (Npos q)) in H. now injection H as ->.
  - rewrite (Hnonneg b Hb). destruct a as [|p|p]; try lia. unfold Z_toString.
    intros H. symmetry in H. now apply digits_not_minus in H.
  - rewrite (Hnonneg a Ha). destruct b as [|q|q]; try lia. unfold Z_toString.
    intros H. now apply digits_not_minus in H.
  - rewrite (Hnonneg a Ha), (Hnonneg b Hb). intros H. apply digits_inj in H. lia.
Qed.

(** ** The returned recipe *)

Lemma obj_get_set_same (k : string) (v : JSValue) (o : list (string * JSValue)) :
  obj_get k (obj_set k v o) = Some v.
Proof.
  induction o as [|[k' v'] o IH]; simpl.
  - now rewrite String.eqb_refl.
  - destruct (String.eqb k k') eqn:E; simpl; rewrite E; [reflexivity | exact IH].
Qed.

Lemma obj_get_set_other (k k' : string) (v : JSValue) (o : list (string * JSValue)) :
  k <> k' -> obj_get k (obj_set k' v o) = obj_get k o.
Proof.
  intros Hne. induction o as [|[k0 v0] o IH]; simpl.
  - apply String.eqb_neq in Hne. now rewrite Hne.
  - destruct (String.eqb k' k0) eqn:E; simpl.
    + apply String.eqb_eq in E. subst k0.
      apply String.eqb_neq in Hne. now rewrite Hne.
    + now rewrite IH.
Qed.

Lemma returned_recipe_is_enriched (w : World) (images : list string)
      (audioBase64 audioMimeType textPrompt : option string) (constraints : list string)
      (generatedRecipe : JSValue) :
  snd (generateRecipeFromInput w images audioBase64 audioMimeType textPrompt constraints)
  = Return generatedRecipe ->
  exists rawRecipe, generatedRecipe = enrich w rawRecipe constraints.
Proof.
  unfold generateRecipeFromInput. destruct (getApiKey w); [discriminate|]. cbn [snd].
  destruct (generateContent w _) as [response|e]; [|discriminate].
  destruct (response_text response) as [[|c r]|]; try discriminate.
  destruct (JSON.parse (String c r)) as [rawRecipe|]; [|discriminate].
  intros [= <-]. now exists rawRecipe.
Qed.

Lemma enrich_id (w : World) (rawRecipe : JSValue) (constraints : list string) :
  field "id" (enrich w rawRecipe constraints) = Some (JStr (freshId w)).
Proof.
  unfold enrich, field.
  now rewrite obj_get_set_other, obj_get_set_other, obj_get_set_same by discriminate.
Qed.

(** C8 (amended): when the provider's response text parses as JSON, the
    operation returns an object that has the properties of the parsed value,
    except that [id] is the identifier drawn for this call, [createdAt] is a
    reading of the clock taken during the call, and [constraints] is the
    caller's list.  The identifier is the value of [crypto.randomUUID()]
    where the platform has it, and the decimal text of the clock otherwise:
    then another recipe has the same identifier exactly when it was made at
    the same reading of the clock. *)
Theorem successful_generation_enriches (w : World) (images : list string)
        (audioBase64 audioMimeType textPrompt : option string) (constraints : list string)
        (response : GenerateContentResponse) (t : string) (rawRecipe : JSValue) :
  truthy (API_KEY w) = true ->
  generateContent w
    (recipeRequest w (buildParts images audioBase64 audioMimeType textPrompt constraints))
  = Return response ->
  response_text response = Some t ->
  JSON.parse t = Some rawRecipe ->
  exists props,
    snd (generateRecipeFromInput w images audioBase64 audioMimeType textPrompt constraints)
    = Return (JObj props)
    /\ obj_get "id" props
       = Some (JStr match crypto_randomUUID w with
                    | Some uuid => uuid
                    | None => Z_toString (Date_now w 0)
                    end)
    /\ (exists i, obj_get "createdAt" props = Some (JNum (Number_of_Z (Date_now w i))))
    /\ obj_get "constraints" props = Some (JArr (map JStr constraints))
    /\ (forall k, k <> "id" -> k <> "createdAt" -> k <> "constraints" ->
                  obj_get k props = obj_get k (spread_props rawRecipe))
    /\ (crypto_randomUUID w = None ->
        forall (w' : World) (images' : list string)
               (audioBase64' audioMimeType' textPrompt' : option string)
               (constraints' : list string) (other : JSValue),
          crypto_randomUUID w' = None ->
          snd (generateRecipeFromInput w' images' audioBase64' audioMimeType' textPrompt'
                                       constraints')
          = Return other ->
          (field "id" other = obj_get "id" props <-> Date_now w' 0 = Date_now w 0)).
Proof.
  intros Hkey Hresp Htext Hparse.
  destruct (getApiKey_present w Hkey) as [c [r Hk]].
  unfold generateRecipeFromInput at 1. rewrite Hk. cbn [snd]. rewrite Hresp, Htext.
  destruct t as [|t0 t]; [rewrite JSON.parse_empty in Hparse; discriminate|].
  rewrite Hparse. eexists. split; [reflexivity|].
  assert (Hid : obj_get "id"
                  (obj_set "constraints" (JArr (map JStr constraints))
                     (obj_set "createdAt" (JNum (createdAt w))
                        (obj_set "id" (JStr (freshId w)) (spread_props rawRecipe))))
                = Some (JStr (freshId w))).
  { now rewrite obj_get_set_other, obj_get_set_other, obj_get_set_same by discriminate. }
  split; [exact Hid | split; [|split; [|split]]].
  - unfold createdAt. destruct (crypto_randomUUID w); [exists 0 | exists 1];
      now rewrite obj_get_set_other, obj_get_set_same by discriminate.
  - apply obj_get_set_same.
  - intros k H1 H2 H3. now rewrite !obj_get_set_other by assumption.
  - intros Hnone w' images' audioBase64' audioMimeType' textPrompt' constraints' other
           Hnone' Hother.
    destruct (returned_recipe_is_enriched _ _ _ _ _ _ _ Hother) as [rawRecipe' ->].
    rewrite enrich_id, Hid. unfold freshId. rewrite Hnone, Hnone'. split.
    + intros [= H]. now apply Z_toString_inj.
    + now intros ->.
Qed.

(** ** The saved recipe after a restart *)


Lemma handleError_appState (e : JSError) (c : State) : appState (handleError e c) = ERROR.
Proof. now rewrite handleError_frame. Qed.




(** * Further properties of the gateway *)

Lemma firstInlineData_some (parts : list ResponsePart) (data : string) :
  firstInlineData parts = Some data <->
  exists before part after,
    parts = (before ++ part :: after)%list
    /\ Forall no_payload before
    /\ inlinePayload part = Some data.
Proof.
  induction parts as [|p parts IH]; cbn [firstInlineData].
  - split; [discriminate|]. intros [before [part [after [H _]]]].
    now destruct before.
  - destruct (inlinePayload p) as [d|] eqn:Ep.
    + split.
      * intros [= <-]. exists [], p, parts. repeat split; [constructor | exact Ep].
      * intros [before [part [after [H [Hb Hp]]]]].
        destruct before as [|b before]; cbn [app] in H; injection H as H1 H2; subst.
        -- congruence.
        -- inversion Hb as [|x l Hx Hl]; subst. unfold no_payload in Hx. congruence.
    + rewrite IH. split.
      * intros [before [part [after [-> [Hb Hp]]]]].
        exists (p :: before), part, after. repeat split; [constructor; assumption | exact Hp].
      * intros [before [part [after [H [Hb Hp]]]]].
        destruct before as [|b before]; cbn [app] in H; injection H as H1 H2; subst.
        -- congruence.
        -- inversion Hb; subst. now exists before, part, after.
Qed.

Lemma firstInlineData_none (parts : list ResponsePart) :
  firstInlineData parts = None <-> Forall no_payload parts.
Proof.
  induction parts as [|p parts IH]; cbn [firstInlineData].
  - split; [constructor | reflexivity].
  - destruct (inlinePayload p) as [d|] eqn:Ep.
    + split; [discriminate|]. intros H. inversion H as [|x l Hx Hl]; subst.
      unfold no_payload in Hx. congruence.
    + rewrite IH. split; [now constructor | now inversion 1].
Qed.

Lemma inlinePayload_not_empty (part : ResponsePart) (data : string) :
  inlinePayload part = Some data -> data <> "".
Proof.
  unfold inlinePayload. destruct (part_inlineData part) as [blob|]; [|discriminate].
  destruct (blob_data blob) as [[|c r]|]; try discriminate. now intros [= <-].
Qed.

Lemma generateDishImage_outcome (w : World) (title description : string)
      (response : GenerateContentResponse) :
  truthy (API_KEY w) = true ->
  generateContent w (dishImageRequest title description) = Return response ->
  snd (generateDishImage w title description)
  = match firstInlineData (match firstCandidateParts response with
                           | Some parts => parts
                           | None => []
                           end) with
    | Some data => Return data
    | None => Throw (Error "No image data found in response")
    end.
Proof.
  intros Hkey Hresp. destruct (getApiKey_present w Hkey) as [c [r Hk]].
  unfold generateDishImage. rewrite Hk. cbn [snd]. now rewrite Hresp.
Qed.

(** X1: the image operation returns the payload of the first part of the
    first candidate that carries a non-empty inline payload, whatever comes
    before it (text parts, empty payloads) and after it; it fails with "No
    image data found in response" exactly when no such part exists. *)
Theorem dish_image_first_payload (w : World) (title description : string)
        (response : GenerateContentResponse) (parts : list ResponsePart) :
  truthy (API_KEY w) = true ->
  generateContent w (dishImageRequest title description) = Return response ->
  parts = match firstCandidateParts response with Some ps => ps | None => [] end ->
  (forall data,
      snd (generateDishImage w title description) = Return data <->
      exists before part after,
        parts = (before ++ part :: after)%list
        /\ Forall no_payload before
        /\ inlinePayload part = Some data
        /\ data <> "")
  /\ (snd (generateDishImage w title description)
      = Throw (Error "No image data found in response")
      <-> Forall no_payload parts).
Proof.
  intros Hkey Hresp ->.
  rewrite (generateDishImage_outcome w title description response Hkey Hresp).
  set (ps := match firstCandidateParts response with Some ps => ps | None => [] end).
  split.
  - intros data. destruct (firstInlineData ps) as [d|] eqn:E.
    + split.
      * intros [= <-]. apply firstInlineData_some in E.
        destruct E as [before [part [after [H1 [H2 H3]]]]].
        exists before, part, after. repeat split; try assumption.
        exact (inlinePayload_not_empty _ _ H3).
      * intros [before [part [after [H1 [H2 [H3 _]]]]]].
        assert (H : firstInlineData ps = Some data)
          by (apply firstInlineData_some; now exists before, part, after).
        congruence.
    + split; [discriminate|].
      intros [before [part [after [H1 [H2 [H3 _]]]]]].
      assert (H : firstInlineData ps = Some data)
        by (apply firstInlineData_some; now exists before, part, after).
      congruence.
  - destruct (firstInlineData ps) as [d|] eqn:E.
    + split; [discriminate|]. intros H. apply firstInlineData_none in H. congruence.
    + split; [intros _; now apply firstInlineData_none | reflexivity].
Qed.

(** X2: with a credential, each operation sends exactly one request, and a
    failure of the remote call is rethrown as it is: no retry, no
    fallback. *)
Theorem one_request_and_failures_rethrown (w : World) :
  truthy (API_KEY w) = true ->
  (forall images audioBase64 audioMimeType textPrompt constraints,
      exists request,
        fst (generateRecipeFromInput w images audioBase64 audioMimeType textPrompt constraints)
        = [request]
        /\ forall e, generateContent w request = Throw e ->
                     snd (generateRecipeFromInput w images audioBase64 audioMimeType
                            textPrompt constraints) = Throw e)
  /\ (forall title description,
         exists request,
           fst (generateDishImage w title description) = [request]
           /\ forall e, generateContent w request = Throw e ->
                        snd (generateDishImage w title description) = Throw e)
  /\ (forall narration,
         exists request,
           fst (generateTTS w narration) = [request]
           /\ forall e, generateContent w request = Throw e ->
                        snd (generateTTS w narration) = Throw e).
Proof.
  intros Hkey. destruct (getApiKey_present w Hkey) as [c [r Hk]].
  unfold generateRecipeFromInput, generateDishImage, generateTTS. rewrite Hk.
  repeat split; intros; eexists; (split; [reflexivity|]);
    cbn [snd]; intros e He; now rewrite He.
Qed.

(** X3: the recipe operation returns exactly when the remote call answered
    with a non-empty text that parses, and then returns the enriched parsed
    value; an absent or empty text fails with "No response generated", and a
    text that does not parse fails with the parser's error. *)
Theorem recipe_returned_iff (w : World) (images : list string)
        (audioBase64 audioMimeType textPrompt : option string) (constraints : list string) :
  truthy (API_KEY w) = true ->
  let request :=
    recipeRequest w (buildParts images audioBase64 audioMimeType textPrompt constraints) in
  let outcome :=
    snd (generateRecipeFromInput w images audioBase64 audioMimeType textPrompt constraints) in
  (forall generatedRecipe,
      outcome = Return generatedRecipe <->
      exists response t rawRecipe,
        generateContent w request = Return response
        /\ response_text response = Some t
        /\ JSON.parse t = Some rawRecipe
        /\ generatedRecipe = enrich w rawRecipe constraints)
  /\ (forall response,
         generateContent w request = Return response ->
         truthy (response_text response) = false ->
         outcome = Throw (Error "No response generated"))
  /\ (forall response t,
         generateContent w request = Return response ->
         response_text response = Some t ->
         t <> "" ->
         JSON.parse t = None ->
         outcome = Throw (JSON_parse_error w t)).
Proof.
  intros Hkey request outcome. subst request outcome.
  destruct (getApiKey_present w Hkey) as [c [r Hk]].
  unfold generateRecipeFromInput. rewrite Hk. cbn [snd].
  split; [|split].
  - intros generatedRecipe. split.
    + destruct (generateContent w _) as [response|e]; [|discriminate].
      destruct (response_text response) as [[|t0 t]|] eqn:Et; try discriminate.
      destruct (JSON.parse (String t0 t)) as [rawRecipe|] eqn:Ep; [|discriminate].
      intros [= <-]. now exists response, (String t0 t), rawRecipe.
    + intros [response [t [rawRecipe [-> [-> [Hp ->]]]]]].
      destruct t as [|t0 t]; [rewrite JSON.parse_empty in Hp; discriminate|].
      now rewrite Hp.
  - intros response -> Ht. now destruct (response_text response) as [[|t0 t]|].
  - intros response t -> -> Hne Hp. destruct t as [|t0 t]; [congruence|]. now rewrite Hp.
Qed.

(** X4: the operation checks nothing against the schema it requests.  When
    the parsed response has no property to copy (the texts [null], [true],
    [7], [{}], [[]] all parse), the call still succeeds, and the recipe holds
    the three local fields only: no title, no steps. *)
Theorem response_is_not_validated (w : World) (images : list string)
        (audioBase64 audioMimeType textPrompt : option string) (constraints : list string)
        (response : GenerateContentResponse) (t : string) (rawRecipe : JSValue) :
  truthy (API_KEY w) = true ->
  generateContent w
    (recipeRequest w (buildParts images audioBase64 audioMimeType textPrompt constraints))
  = Return response ->
  response_text response = Some t ->
  JSON.parse t = Some rawRecipe ->
  spread_props rawRecipe = [] ->
  snd (generateRecipeFromInput w images audioBase64 audioMimeType textPrompt constraints)
  = Return (JObj [ ("id", JStr (freshId w));
                   ("createdAt", JNum (createdAt w));
                   ("constraints", JArr (map JStr constraints)) ])
  /\ forall k, k <> "id" -> k <> "createdAt" -> k <> "constraints" ->
               field k (JObj [ ("id", JStr (freshId w));
                               ("createdAt", JNum (createdAt w));
                               ("constraints", JArr (map JStr constraints)) ]) = None.
Proof.
  intros Hkey Hresp Htext Hparse Hempty.
  destruct (getApiKey_present w Hkey) as [c [r Hk]].
  unfold generateRecipeFromInput. rewrite Hk. cbn [snd]. rewrite Hresp, Htext.
  destruct t as [|t0 t]; [rewrite JSON.parse_empty in Hparse; discriminate|].
  rewrite Hparse. unfold enrich. rewrite Hempty. split; [reflexivity|].
  intros k H1 H2 H3. cbn [field obj_get].
  apply String.eqb_neq in H1, H2, H3. now rewrite H1, H2, H3.
Qed.

(** X5: where [crypto.randomUUID] is missing the identifier is the decimal
    rendering of the clock, so two calls draw the same identifier exactly
    when their first clock readings are equal. *)
Theorem fallback_ids_equal_iff (w1 w2 : World) :
  crypto_randomUUID w1 = None ->
  crypto_randomUUID w2 = None ->
  (freshId w1 = freshId w2 <-> Date_now w1 0 = Date_now w2 0).
Proof.
  intros H1 H2. unfold freshId. rewrite H1, H2. split.
  - apply Z_toString_inj.
  - now intros ->.
Qed.


(** * Further properties of the controller *)

Lemma run_cons (ev : Event) (evs : list Event) (c : State) (st : Storage) :
  run (ev :: evs) c st = run evs (fst (step ev c st)) (snd (step ev c st)).
Proof. cbn [run]. now destruct (step ev c st). Qed.

(** A property that every permitted event preserves holds after every run
    of permitted events. *)
Lemma run_invariant (P : State -> Storage -> Prop) (Q : Event -> Prop) :
  (forall ev c st, Q ev -> P c st -> P (fst (step ev c st)) (snd (step ev c st))) ->
  forall evs c st, Forall Q evs -> P c st -> P (fst (run evs c st)) (snd (run evs c st)).
Proof.
  intros Hstep. induction evs as [|ev evs IH]; intros c st Hq Hp; [exact Hp|].
  rewrite run_cons. inversion Hq; subst. apply IH; [assumption|]. now apply Hstep.
Qed.

Lemma Forall_True (evs : list Event) : Forall (fun _ => True) evs.
Proof. induction evs; constructor; auto. Qed.

(** The outcome of an event that runs no generation or a failing one leaves
    history and storage alone; a returning one goes through
    [saveToHistory]. *)
Lemma accepted_generation_step (ev : Event) (c : State) (st : Storage)
      (generatedRecipe : JSValue) (old : list JSValue) :
  writes_accepted ev ->
  generation ev = Some (Return generatedRecipe) ->
  spread_iter (history c) = Some old ->
  step ev c st
  = (mkState RECIPE_VIEW (Some generatedRecipe) (JArr (generatedRecipe :: old)) None None,
     setItem historyKey (JSON.stringify (JArr (generatedRecipe :: old))) st).
Proof.
  destruct ev; cbn [generation writes_accepted step]; try discriminate;
    intros Hacc [= Hgen] Hold; unfold handleCapture, handleTextGeneration;
    rewrite Hgen; unfold afterGeneration, saveToHistory;
    cbn [history setRecipe beginProcessing setErrorDetails setError setAppState];
    rewrite Hold, Hacc; reflexivity.
Qed.

Lemma unreadable_generation_step (ev : Event) (c : State) (st : Storage)
      (generatedRecipe : JSValue) :
  generation ev = Some (Return generatedRecipe) ->
  spread_iter (history c) = None ->
  exists e, step ev c st
            = (handleError e (setRecipe (Some generatedRecipe) (beginProcessing c)), st).
Proof.
  intros Hgen Hnone. destruct (generation_step ev c st _ Hgen) as [b ->].
  unfold afterGeneration, saveToHistory.
  cbn [history setRecipe beginProcessing setErrorDetails setError setAppState].
  rewrite Hnone. now eexists.
Qed.

Lemma getItem_setItem_other (k k' v : string) (st : Storage) :
  k <> k' -> getItem k (setItem k' v st) = getItem k st.
Proof.
  intros Hne. unfold setItem. cbn [getItem].
  apply String.eqb_neq in Hne. rewrite Hne.
  induction st as [|[k0 v0] st IH]; [reflexivity|].
  cbn [filter fst getItem]. destruct (String.eqb k' k0) eqn:E; cbn [negb getItem].
  - apply String.eqb_eq in E. subst k0. now rewrite Hne.
  - now rewrite IH.
Qed.

Lemma step_storage_cases (ev : Event) (c : State) (st : Storage) :
  snd (step ev c st) = st
  \/ exists serialized, snd (step ev c st) = setItem historyKey serialized st.
Proof.
  destruct (generation ev) as [[generatedRecipe | e]|] eqn:Hgen.
  - destruct (generation_step ev c st _ Hgen) as [b ->]. unfold afterGeneration.
    destruct (saveToHistory_cases b generatedRecipe
                (setRecipe (Some generatedRecipe) (beginProcessing c)) st)
      as [[_ [e ->]] | [old [Hold [[e ->] | ->]]]]; cbn [snd];
      [now left | now left | right; now eexists].
  - left. now rewrite (failed_generation_step ev c st e Hgen).
  - left. exact (proj2 (quiet_step ev c st Hgen)).
Qed.

(** X7: the controller writes one storage key only.  Whatever the events,
    every other item of the storage reads as it did before. *)
Theorem other_storage_keys_untouched (evs : list Event) (c : State) (st : Storage)
        (k : string) :
  k <> historyKey ->
  getItem k (snd (run evs c st)) = getItem k st.
Proof.
  intros Hk.
  apply (run_invariant (fun _ st' => getItem k st' = getItem k st) (fun _ => True));
    [|apply Forall_True | reflexivity].
  intros ev c' st' _ H.
  destruct (step_storage_cases ev c' st') as [-> | [serialized ->]]; [exact H|].
  now rewrite getItem_setItem_other.
Qed.

(** X8: without a credential a capture or a text submission ends on the
    error screen titled "Configuration Error", with the recipe, the history
    and the storage as before. *)
Theorem missing_key_error_screen (w : World) (b : Browser) (c : State) (st : Storage) :
  truthy (API_KEY w) = false ->
  (forall data,
      handleCapture w b data c st
      = (mkState ERROR (recipe c) (history c) (Some "Configuration Error")
                 (Some "The API Key is missing. Please check the environment configuration."),
         st))
  /\ (forall prompt,
         handleTextGeneration w b prompt c st
         = (mkState ERROR (recipe c) (history c) (Some "Configuration Error")
                    (Some "The API Key is missing. Please check the environment configuration."),
            st)).
Proof.
  intros Hkey. apply getApiKey_absent in Hkey.
  unfold handleCapture, handleTextGeneration, captureOutcome, textOutcome,
    generateRecipeFromInput.
  rewrite Hkey. split; intros; reflexivity.
Qed.

(** X9: when the remote model answers without text, or with an empty one, a
    capture ends on the error screen titled "Inspiration blocked", with the
    recipe, the history and the storage as before. *)
Theorem empty_response_error_screen (w : World) (b : Browser) (data : CaptureData)
        (c : State) (st : Storage) (response : GenerateContentResponse) :
  truthy (API_KEY w) = true ->
  generateContent w
    (recipeRequest w
       (buildParts (images data) (audio data) (audioMimeType data) None
          (match constraints data with Some cs => cs | None => [] end)))
  = Return response ->
  truthy (response_text response) = false ->
  handleCapture w b data c st
  = (mkState ERROR (recipe c) (history c) (Some "Inspiration blocked")
             (Some "The Muse couldn't understand the request or it was flagged. Try different wording."),
     st).
Proof.
  intros Hkey Hresp Htext. destruct (getApiKey_present w Hkey) as [k0 [k Hk]].
  unfold handleCapture, captureOutcome, generateRecipeFromInput.
  rewrite Hk. cbn [snd]. rewrite Hresp.
  destruct (response_text response) as [[|t0 t]|]; try discriminate Htext; reflexivity.
Qed.

(** X10: "Try Again" after a failed generation leaves no trace of the
    failure: the state is the one a reset before the request would have
    given, the camera view with no recipe and no error, and the storage is
    unchanged. *)
Theorem reset_after_failure (ev : Event) (c : State) (st : Storage) (e : JSError) :
  generation ev = Some (Throw e) ->
  handleReset (fst (step ev c st)) = handleReset c
  /\ handleReset c = mkState IDLE None (history c) None None
  /\ snd (step ev c st) = st.
Proof.
  intros H. rewrite (failed_generation_step ev c st e H). cbn [fst snd].
  repeat split. unfold handleReset, setErrorDetails, setError, setRecipe, setAppState.
  cbn [appState recipe history error errorDetails].
  rewrite handleError_history. reflexivity.
Qed.

Lemma unreadable_step (ev : Event) (c : State) (st : Storage) :
  spread_iter (history c) = None ->
  history (fst (step ev c st)) = history c /\ snd (step ev c st) = st.
Proof.
  intros Hnone. destruct (generation ev) as [[generatedRecipe | e]|] eqn:Hgen.
  - destruct (unreadable_generation_step ev c st _ Hgen Hnone) as [e ->].
    cbn [fst snd]. now rewrite handleError_history.
  - rewrite (failed_generation_step ev c st e Hgen). cbn [fst snd].
    now rewrite handleError_history.
  - now apply quiet_step.
Qed.

Lemma loadHistory_appState (st : Storage) (c : State) :
  appState (loadHistory st c) = appState c.
Proof.
  unfold loadHistory. destruct (getItem historyKey st) as [[|a r]|]; try reflexivity.
  now destruct (JSON.parse (String a r)).
Qed.

(** X11: a stored history that parses to a value that cannot be spread (an
    object, a number, a boolean, [null]) is never repaired.  Through every
    later event the history in memory and the storage stay what they were,
    and a generation that returns a recipe ends on the error screen, the
    recipe set but not saved. *)
Theorem unreadable_history_is_never_repaired (st0 : Storage) (evs : list Event) :
  spread_iter (history (loadHistory st0 initialState)) = None ->
  history (fst (session st0 evs)) = history (loadHistory st0 initialState)
  /\ snd (session st0 evs) = st0
  /\ forall ev generatedRecipe,
       generation ev = Some (Return generatedRecipe) ->
       appState (fst (step ev (fst (session st0 evs)) (snd (session st0 evs)))) = ERROR
       /\ recipe (fst (step ev (fst (session st0 evs)) (snd (session st0 evs))))
          = Some generatedRecipe.
Proof.
  intros Hnone. unfold session.
  assert (Hrun : history (fst (run evs (loadHistory st0 initialState) st0))
                 = history (loadHistory st0 initialState)
                 /\ snd (run evs (loadHistory st0 initialState) st0) = st0).
  { apply (run_invariant
             (fun c st => history c = history (loadHistory st0 initialState) /\ st = st0)
             (fun _ => True)); [|apply Forall_True | now split].
    intros ev c st _ [Hc ->]. rewrite <- Hc in Hnone.
    destruct (unreadable_step ev c st0 Hnone) as [-> ->]. now split. }
  destruct Hrun as [Hh Hs]. split; [exact Hh | split; [exact Hs|]].
  intros ev generatedRecipe Hgen. rewrite <- Hh in Hnone.
  destruct (unreadable_generation_step ev _ (snd (run evs (loadHistory st0 initialState) st0))
              _ Hgen Hnone) as [e ->].
  cbn [fst]. rewrite handleError_frame. split; reflexivity.
Qed.

Lemma step_prepends (ev : Event) (c : State) (st : Storage) (old : list JSValue) :
  writes_accepted ev ->
  history c = JArr old ->
  history (fst (step ev c st))
  = JArr (match generation ev with
          | Some (Return generatedRecipe) => generatedRecipe :: old
          | _ => old
          end).
Proof.
  intros Hacc Hc. destruct (generation ev) as [[generatedRecipe | e]|] eqn:Hgen.
  - rewrite (accepted_generation_step ev c st generatedRecipe old Hacc Hgen);
      [reflexivity | now rewrite Hc].
  - rewrite (failed_generation_step ev c st e Hgen). cbn [fst].
    now rewrite handleError_history.
  - now rewrite (proj1 (quiet_step ev c st Hgen)).
Qed.

(** X12: the history is the list of the recipes generated so far, newest
    first, in front of what it held at the start: every generation that
    returned added exactly one entry, the failed ones none, and no entry was
    removed or reordered (the browser accepting the writes). *)
Theorem history_is_newest_first (evs : list Event) (c : State) (st : Storage)
        (old : list JSValue) :
  Forall writes_accepted evs ->
  history c = JArr old ->
  history (fst (run evs c st)) = JArr (rev (generated evs) ++ old).
Proof.
  revert c st old. induction evs as [|ev evs IH]; intros c st old Hacc Hc; [exact Hc|].
  inversion Hacc as [|x l Hev Hevs]; subst.
  rewrite run_cons.
  rewrite (IH _ _ _ Hevs (step_prepends ev c st old Hev Hc)).
  unfold generated. cbn [flat_map].
  destruct (generation ev) as [[generatedRecipe | e]|]; cbn [app];
    try reflexivity.
  cbn [rev]. now rewrite <- app_assoc.
Qed.


(** X14: when the browser refuses the write of the new history, a capture
    whose generation succeeded still ends on the error screen.  The recipe is
    then the current recipe and heads the history in memory, but the storage
    is what it was: a restart does not bring the recipe back. *)
Theorem refused_write_loses_recipe (w : World) (b : Browser) (data : CaptureData)
        (c : State) (st : Storage) (generatedRecipe : JSValue) (old : list JSValue)
        (e : JSError) :
  captureOutcome w data = Return generatedRecipe ->
  spread_iter (history c) = Some old ->
  setItem_error b historyKey (JSON.stringify (JArr (generatedRecipe :: old))) = Some e ->
  handleCapture w b data c st
  = (mkState ERROR (Some generatedRecipe) (JArr (generatedRecipe :: old))
             (Some (fst (classify (or_else (message e) ""))))
             (Some (snd (classify (or_else (message e) "")))),
     st).
Proof.
  intros Hgen Hold Hrefused. unfold handleCapture. rewrite Hgen.
  unfold afterGeneration, saveToHistory.
  cbn [history setRecipe beginProcessing setErrorDetails setError setAppState].
  rewrite Hold, Hrefused. unfold handleError.
  now destruct (classify (or_else (message e) "")).
Qed.

Lemma generated_is_object (ev : Event) (generatedRecipe : JSValue) :
  generation ev = Some (Return generatedRecipe) ->
  exists props, generatedRecipe = JObj props.
Proof.
  assert (H : forall w images audioBase64 audioMimeType textPrompt constraints,
             snd (generateRecipeFromInput w images audioBase64 audioMimeType textPrompt
                    constraints) = Return generatedRecipe ->
             exists props, generatedRecipe = JObj props).
  { intros w images audioBase64 audioMimeType textPrompt constraints.
    unfold generateRecipeFromInput.
    destruct (getApiKey w); cbn [snd]; [discriminate|].
    destruct (generateContent w _) as [response|]; [|discriminate].
    destruct (response_text response) as [[|c r]|]; try discriminate.
    destruct (JSON.parse (String c r)) as [rawRecipe|]; [|discriminate].
    intros [= <-]. unfold enrich. now eexists. }
  destruct ev; cbn [generation]; try discriminate; intros [= Hgen];
    unfold captureOutcome, textOutcome in Hgen; exact (H _ _ _ _ _ _ Hgen).
Qed.

(** What a step leaves in the cells that decide the rendering. *)
Lemma step_view_cases (ev : Event) (c : State) (st : Storage) :
  (appState (fst (step ev c st)) = RECIPE_VIEW
   /\ exists shown, recipe (fst (step ev c st)) = Some shown
                    /\ (ev = SelectRecipe shown \/ exists props, shown = JObj props))
  \/ (exists e c0, fst (step ev c st) = handleError e c0)
  \/ (appState (fst (step ev c st)) <> RECIPE_VIEW
      /\ appState (fst (step ev c st)) <> ERROR).
Proof.
  destruct (generation ev) as [[generatedRecipe | e]|] eqn:Hgen.
  - destruct (generation_step ev c st _ Hgen) as [b ->]. unfold afterGeneration.
    destruct (saveToHistory_cases b generatedRecipe
                (setRecipe (Some generatedRecipe) (beginProcessing c)) st)
      as [[_ [e ->]] | [old [Hold [[e ->] | ->]]]]; cbn [fst].
    + right. left. now eexists _, _.
    + right. left. now eexists _, _.
    + left. split; [reflexivity|]. exists generatedRecipe. split; [reflexivity|].
      right. exact (generated_is_object ev _ Hgen).
  - rewrite (failed_generation_step ev c st e Hgen). cbn [fst].
    right. left. now eexists _, _.
  - destruct ev; cbn [generation] in Hgen; try discriminate Hgen; cbn [step fst].
    1-5: right; right; split; discriminate.
    left. split; [reflexivity|]. exists selected. split; [reflexivity | now left].
Qed.

(** X15: the viewport is never blank.  In every session in which the
    cookbook selects truthy entries, exactly one screen is rendered; on the
    recipe screen it shows the current recipe, which is then set. *)
Theorem exactly_one_screen (st0 : Storage) (evs : list Event) :
  Forall selection_truthy evs ->
  exists screen,
    render (fst (session st0 evs)) = [screen]
    /\ (appState (fst (session st0 evs)) = RECIPE_VIEW ->
        exists shown, recipe (fst (session st0 evs)) = Some shown
                      /\ screen = RecipeView shown).
Proof.
  intros Hsel.
  assert (Hinv : appState (fst (session st0 evs)) = RECIPE_VIEW ->
                 exists shown, recipe (fst (session st0 evs)) = Some shown
                               /\ truthy_value shown = true).
  { unfold session.
    apply (run_invariant
             (fun c _ => appState c = RECIPE_VIEW ->
                         exists shown, recipe c = Some shown /\ truthy_value shown = true)
             selection_truthy); [| exact Hsel |].
    - intros ev c st Hev _.
      destruct (step_view_cases ev c st)
        as [[_ [shown [Hshown [-> | [props ->]]]]] | [[e [c0 He]] | [Hne _]]].
      + intros _. exists shown. split; [exact Hshown | exact Hev].
      + intros _. exists (JObj props). split; [exact Hshown | reflexivity].
      + rewrite He, handleError_appState. discriminate.
      + intros H. contradiction.
    - rewrite loadHistory_appState. discriminate. }
  unfold render.
  destruct (appState (fst (session st0 evs))) eqn:Hstate;
    try (eexists; split; [reflexivity | discriminate]).
  destruct (Hinv eq_refl) as [shown [Hshown Htruthy]].
  rewrite Hshown, Htruthy. exists (RecipeView shown).
  split; [reflexivity|]. intros _. now exists shown.
Qed.

(** X16: the error screen always has something to show.  Whenever a session
    is in the error state, the title and the detail are set, and they are the
    pair the classifier gives for some message. *)
Theorem error_screen_has_message (st0 : Storage) (evs : list Event) :
  appState (fst (session st0 evs)) = ERROR ->
  exists errorMessage,
    render (fst (session st0 evs))
    = [ErrorPanel (Some (fst (classify errorMessage))) (Some (snd (classify errorMessage)))].
Proof.
  assert (Hinv : appState (fst (session st0 evs)) = ERROR ->
                 exists errorMessage,
                   error (fst (session st0 evs)) = Some (fst (classify errorMessage))
                   /\ errorDetails (fst (session st0 evs))
                      = Some (snd (classify errorMessage))).
  { unfold session.
    apply (run_invariant
             (fun c _ => appState c = ERROR ->
                         exists errorMessage,
                           error c = Some (fst (classify errorMessage))
                           /\ errorDetails c = Some (snd (classify errorMessage)))
             (fun _ => True)); [| apply Forall_True |].
    - intros ev c st _ _.
      destruct (step_view_cases ev c st) as [[Hview _] | [[e [c0 He]] | [_ Hne]]].
      + rewrite Hview. discriminate.
      + intros _. exists (or_else (message e) ""). rewrite He. unfold handleError.
        now destruct (classify (or_else (message e) "")).
      + intros H. contradiction.
    - rewrite loadHistory_appState. discriminate. }
  intros Hstate. destruct (Hinv Hstate) as [errorMessage [Herr Hdet]].
  exists errorMessage. unfold render. now rewrite Hstate, Herr, Hdet.
Qed.

End Properties.

(** * The statements on concrete inputs *)

Existing Instance MiniJSON.platform.

(** ** Worked examples of the platform functions *)

Example parse_nested :
  MiniJSON.parse " [1, [2.50, -30e-1], null, true, {}] "
  = Some (JArr [JNum (Number_of_Z 1);
                JArr [JNum (SpecFloat.binary_normalize 53 1024 5 (-1) false);
                      JNum (Number_of_Z (-3))];
                JNull; JBool true; JObj []]).
Proof. vm_compute. reflexivity. Qed.

Example parse_rejects_trailing_comma : MiniJSON.parse "[1,]" = None.
Proof. reflexivity. Qed.

Example parse_rejects_leading_zero : MiniJSON.parse "01" = None.
Proof. reflexivity. Qed.

Example parse_repeated_key :
  MiniJSON.parse
    ("{" ++ quoted "b" ++ ":1," ++ quoted "a" ++ ":null," ++ quoted "7" ++ ":true,"
     ++ quoted "b" ++ ":2}")
  = Some (JObj [("7", JBool true); ("b", JNum (Number_of_Z 2)); ("a", JNull)]).
Proof. vm_compute. reflexivity. Qed.

Example stringify_escapes :
  MiniJSON.stringify (JStr (String "010" (String dquote "x")))
  = String dquote (String backslash (String "n"
      (String backslash (String dquote (String "x" (String dquote EmptyString)))))).
Proof. reflexivity. Qed.

Example stringify_numbers :
  map MiniJSON.stringify
      [JNum (Number_of_Z 1700000000000); JNum (SpecFloat.binary_normalize 53 1024 5 (-1) false);
       JNum (SpecFloat.binary_normalize 53 1024 (-1) 70 false); JNum (SpecFloat.S754_zero true);
       JNum (SpecFloat.S754_infinity false); JNum SpecFloat.S754_nan]
  = ["1700000000000"; "2.5"; "-1.1805916207174113e+21"; "0"; "null"; "null"].
Proof. vm_compute. reflexivity. Qed.

Example parse_surrogate_pair :
  MiniJSON.parse (quoted (String backslash "ud83c" ++ String backslash "udf72"))
  = Some (JStr (utf8 127858)).
Proof. vm_compute. reflexivity. Qed.

Example stringify_lone_surrogate :
  MiniJSON.stringify (JStr (utf8 55356 ++ utf8 233))
  = quoted (String backslash "ud83c" ++ utf8 233).
Proof. vm_compute. reflexivity. Qed.

Example spread_of_text :
  spread_iter (JStr (utf8 127858 ++ "ab"))
  = Some [JStr (utf8 127858); JStr "a"; JStr "b"]
  /\ map fst (spread_props (JStr (utf8 127858 ++ "ab"))) = ["0"; "1"; "2"; "3"].
Proof. split; vm_compute; reflexivity. Qed.

Example parse_overflow :
  MiniJSON.parse overflowText
  = Some (JObj [("title", JStr "Soup"); ("servings", JNum (SpecFloat.S754_infinity false))]).
Proof. vm_compute. reflexivity. Qed.

Example sample_generation :
  snd (generateRecipeFromInput sampleWorld ["img"] None None None ["No Stove"])
  = Return (JObj [("id", JStr "3f0c"); ("createdAt", JNum (Number_of_Z 1700000000000));
                  ("constraints", JArr [JStr "No Stove"])]).
Proof. reflexivity. Qed.

(** ** Witnesses *)

Lemma three_images_request_witness :
  exists request,
    fst (generateRecipeFromInput
           (mkWorld (Some "key") "" (fun _ => Throw (Error "offline")) (fun _ => Error "")
                    None (fun _ => 0%Z))
           ["a"; "b"; "c"] None None None []) = [request]
    /\ contents request =
       Content
         [ inlineData "image/jpeg" "a";
           inlineData "image/jpeg" "b";
           inlineData "image/jpeg" "c";
           text ("I have these ingredients. " ++ constraintText []
                 ++ " Make me something delicious.");
           text "Analyze the ingredients and the user request. Create a recipe." ].
Proof.
  apply (three_images_request (platform := MiniJSON.platform)
           (mkWorld (Some "key") "" (fun _ => Throw (Error "offline")) (fun _ => Error "")
                    None (fun _ => 0%Z))
           "a" "b" "c" None None None []); reflexivity.
Defined.



Lemma missing_key_fails_before_any_request_witness :
  truthy (API_KEY keylessWorld) = false
  /\ generateRecipeFromInput keylessWorld ["img"] None None None []
     = ([], Throw (Error "API Key missing"))
  /\ generateDishImage keylessWorld "Soup" "Warm" = ([], Throw (Error "API Key missing"))
  /\ generateTTS keylessWorld "Stir." = ([], Throw (Error "API Key missing")).
Proof.
  split; [reflexivity|].
  destruct (missing_key_fails_before_any_request (platform := MiniJSON.platform)
              keylessWorld eq_refl) as [H1 [H2 H3]].
  split; [apply H1 | split; [apply H2 | apply H3]].
Defined.

Lemma failure_keeps_recipe_witness :
  recipe (fst (step (Capture keylessWorld sampleBrowser sampleCapture) viewingState []))
  = Some (JObj [("title", JStr "Soup")]).
Proof.
  pose proof (failure_keeps_recipe (platform := MiniJSON.platform)
                (Capture keylessWorld sampleBrowser sampleCapture) viewingState []
                (Error "API Key missing") eq_refl) as [_ [H _]].
  rewrite H. reflexivity.
Defined.

Lemma speech_reads_first_part_witness :
  snd (generateTTS speechWorld "Stir.") = Throw (Error "No audio generated").
Proof.
  apply (speech_reads_first_part speechWorld "Stir." textThenAudio); reflexivity.
Defined.

Lemma dish_image_first_payload_witness :
  snd (generateDishImage imageWorld "Soup" "Warm and thick") = Return "iVBORw0KGgo".
Proof.
  destruct (dish_image_first_payload imageWorld "Soup" "Warm and thick"
              textThenImage _ eq_refl eq_refl eq_refl) as [H _].
  apply H.
  exists [mkResponsePart None (Some "Here is your dish.");
          mkResponsePart (Some (mkBlob (Some "image/png") (Some ""))) None],
    (mkResponsePart (Some (mkBlob (Some "image/png") (Some "iVBORw0KGgo"))) None),
    [mkResponsePart (Some (mkBlob (Some "image/png") (Some "AAAA"))) None].
  repeat split; try discriminate.
  repeat constructor.
Defined.

Lemma one_request_and_failures_rethrown_witness :
  snd (generateTTS offlineWorld "Stir.") = Throw (Error "Failed to fetch").
Proof.
  destruct (one_request_and_failures_rethrown (platform := MiniJSON.platform)
              offlineWorld eq_refl) as [_ [_ H]].
  destruct (H "Stir.") as [request [Hsent Hthrow]].
  injection Hsent as <-. now apply Hthrow.
Defined.

Lemma recipe_returned_iff_witness :
  snd (generateRecipeFromInput silentWorld ["img"] None None None [])
  = Throw (Error "No response generated").
Proof.
  destruct (recipe_returned_iff (platform := MiniJSON.platform)
              silentWorld ["img"] None None None [] eq_refl)
    as [_ [H _]].
  apply (H (mkResponse (Some "") None)); reflexivity.
Defined.

Lemma response_is_not_validated_witness :
  snd (generateRecipeFromInput nullWorld ["img"] None None None ["No Stove"])
  = Return (JObj [ ("id", JStr "3f0c");
                   ("createdAt", JNum (Number_of_Z 1700000000000));
                   ("constraints", JArr [JStr "No Stove"]) ])
  /\ field "title" (JObj [ ("id", JStr "3f0c");
                           ("createdAt", JNum (Number_of_Z 1700000000000));
                           ("constraints", JArr [JStr "No Stove"]) ]) = None.
Proof.
  destruct (response_is_not_validated (platform := MiniJSON.platform)
              nullWorld ["img"] None None None ["No Stove"]
              (mkResponse (Some "null") None) "null" JNull
              eq_refl eq_refl eq_refl eq_refl eq_refl) as [H1 H2].
  split; [exact H1 | apply H2; discriminate].
Defined.

Lemma fallback_ids_equal_iff_witness :
  freshId offlineWorld <> freshId laterWorld.
Proof.
  intros H.
  apply (fallback_ids_equal_iff offlineWorld laterWorld eq_refl eq_refl) in H.
  discriminate H.
Defined.


Lemma other_storage_keys_untouched_witness :
  getItem "theme"
          (snd (run [Start; Capture sampleWorld sampleBrowser sampleCapture] initialState
                    [("theme", "dark")]))
  = Some "dark".
Proof.
  rewrite (other_storage_keys_untouched (platform := MiniJSON.platform)
             [Start; Capture sampleWorld sampleBrowser sampleCapture] initialState
             [("theme", "dark")] "theme"); [reflexivity | discriminate].
Defined.

Lemma missing_key_error_screen_witness :
  handleCapture keylessWorld sampleBrowser sampleCapture viewingState []
  = (mkState ERROR (recipe viewingState) (history viewingState) (Some "Configuration Error")
             (Some "The API Key is missing. Please check the environment configuration."),
     []).
Proof.
  apply (missing_key_error_screen (platform := MiniJSON.platform)
           keylessWorld sampleBrowser viewingState [] eq_refl).
Defined.

Lemma empty_response_error_screen_witness :
  handleCapture silentWorld sampleBrowser sampleCapture viewingState []
  = (mkState ERROR (recipe viewingState) (history viewingState) (Some "Inspiration blocked")
             (Some "The Muse couldn't understand the request or it was flagged. Try different wording."),
     []).
Proof.
  apply (empty_response_error_screen (platform := MiniJSON.platform)
           silentWorld sampleBrowser sampleCapture viewingState []
           (mkResponse (Some "") None)); reflexivity.
Defined.

Lemma reset_after_failure_witness :
  handleReset (fst (step (Capture keylessWorld sampleBrowser sampleCapture) viewingState []))
  = mkState IDLE None (history viewingState) None None.
Proof.
  destruct (reset_after_failure (platform := MiniJSON.platform)
              (Capture keylessWorld sampleBrowser sampleCapture)
              viewingState [] (Error "API Key missing") eq_refl) as [H1 [H2 _]].
  rewrite H1. exact H2.
Defined.

Lemma unreadable_history_is_never_repaired_witness :
  history (fst (session [(historyKey, "{}")]
                        [Start; Capture sampleWorld sampleBrowser sampleCapture]))
  = JObj []
  /\ snd (session [(historyKey, "{}")]
                  [Start; Capture sampleWorld sampleBrowser sampleCapture])
     = [(historyKey, "{}")].
Proof.
  destruct (unreadable_history_is_never_repaired (platform := MiniJSON.platform)
              [(historyKey, "{}")]
              [Start; Capture sampleWorld sampleBrowser sampleCapture] eq_refl)
    as [H1 [H2 _]].
  split; [exact H1 | exact H2].
Defined.

Lemma history_is_newest_first_witness :
  history (fst (run [Capture sampleWorld sampleBrowser sampleCapture;
                     Capture keylessWorld sampleBrowser sampleCapture;
                     TextGeneration nullWorld sampleBrowser "soup"]
                    initialState []))
  = JArr [ JObj [("id", JStr "3f0c"); ("createdAt", JNum (Number_of_Z 1700000000000));
                 ("constraints", JArr [])];
           JObj [("id", JStr "3f0c"); ("createdAt", JNum (Number_of_Z 1700000000000));
                 ("constraints", JArr [JStr "No Stove"])] ].
Proof.
  apply (history_is_newest_first (platform := MiniJSON.platform)
           [Capture sampleWorld sampleBrowser sampleCapture;
            Capture keylessWorld sampleBrowser sampleCapture;
            TextGeneration nullWorld sampleBrowser "soup"]
           initialState [] []); [|reflexivity].
  repeat constructor.
Defined.


Lemma refused_write_loses_recipe_witness :
  handleCapture sampleWorld fullBrowser sampleCapture initialState []
  = (mkState ERROR
             (Some (JObj [("id", JStr "3f0c"); ("createdAt", JNum (Number_of_Z 1700000000000));
                          ("constraints", JArr [JStr "No Stove"])]))
             (JArr [JObj [("id", JStr "3f0c"); ("createdAt", JNum (Number_of_Z 1700000000000));
                          ("constraints", JArr [JStr "No Stove"])]])
             (Some "The Muse was silent.")
             (Some "We couldn't generate a recipe. Please try again."),
     []).
Proof.
  apply (refused_write_loses_recipe (platform := MiniJSON.platform)
           sampleWorld fullBrowser sampleCapture initialState []
           (JObj [("id", JStr "3f0c"); ("createdAt", JNum (Number_of_Z 1700000000000));
                  ("constraints", JArr [JStr "No Stove"])])
           [] (Error "The quota has been exceeded.")); reflexivity.
Defined.

Lemma exactly_one_screen_witness :
  exists screen,
    render (fst (session [] [Start; Capture sampleWorld sampleBrowser sampleCapture]))
    = [screen]
    /\ (appState (fst (session [] [Start; Capture sampleWorld sampleBrowser sampleCapture]))
        = RECIPE_VIEW ->
        exists shown,
          recipe (fst (session [] [Start; Capture sampleWorld sampleBrowser sampleCapture]))
          = Some shown
          /\ screen = RecipeView shown).
Proof.
  apply (exactly_one_screen (platform := MiniJSON.platform)
           [] [Start; Capture sampleWorld sampleBrowser sampleCapture]).
  repeat constructor.
Defined.

Lemma error_screen_has_message_witness :
  exists errorMessage,
    render (fst (session [] [Start; Capture keylessWorld sampleBrowser sampleCapture]))
    = [ErrorPanel (Some (fst (classify errorMessage))) (Some (snd (classify errorMessage)))].
Proof.
  apply (error_screen_has_message (platform := MiniJSON.platform)
           [] [Start; Capture keylessWorld sampleBrowser sampleCapture]).
  reflexivity.
Defined.

(** ** The identifier of a recipe *)

(** C8, as stated, fails.  Where [crypto.randomUUID] is missing, two
    generations that read the same value of the clock return two different
    recipes under one identifier. *)
Lemma fallback_id_counterexample :
  crypto_randomUUID soupWorld = None
  /\ crypto_randomUUID stewWorld = None
  /\ exists soup stew,
       snd (generateRecipeFromInput soupWorld [] None None (Some "soup") []) = Return soup
       /\ snd (generateRecipeFromInput stewWorld [] None None (Some "stew") []) = Return stew
       /\ field "title" soup = Some (JStr "Soup")
       /\ field "title" stew = Some (JStr "Stew")
       /\ soup <> stew
       /\ field "id" soup = field "id" stew.
Proof.
  split; [reflexivity | split; [reflexivity|]].
  eexists _, _. split; [vm_compute; reflexivity|]. split; [vm_compute; reflexivity|].
  split; [reflexivity | split; [reflexivity | split; [discriminate | reflexivity]]].
Qed.

Lemma successful_generation_enriches_witness :
  exists props,
    snd (generateRecipeFromInput soupWorld ["img"] None None None ["No Stove"])
    = Return (JObj props)
    /\ obj_get "id" props = Some (JStr "1700000000000")
    /\ obj_get "createdAt" props = Some (JNum (Number_of_Z 1700000000001))
    /\ obj_get "constraints" props = Some (JArr [JStr "No Stove"])
    /\ obj_get "title" props = Some (JStr "Soup")
    /\ obj_get "totalTime" props = Some (JStr "20 min")
    /\ (field "id" (JObj [("title", JStr "Stew"); ("totalTime", JStr "2 h");
                          ("id", JStr "1700000000000");
                          ("createdAt", JNum (Number_of_Z 1700000000001));
                          ("constraints", JArr [])])
        = obj_get "id" props
        <-> Date_now stewWorld 0 = Date_now soupWorld 0).
Proof.
  destruct (successful_generation_enriches (platform := MiniJSON.platform)
              soupWorld ["img"] None None None ["No Stove"]
              (mkResponse (Some soupText) None) soupText
              (JObj [("title", JStr "Soup"); ("totalTime", JStr "20 min")])
              eq_refl eq_refl eq_refl eq_refl)
    as [props [Hreturned [Hid [_ [Hconstraints [Hcopied Hunique]]]]]].
  exists props. split; [exact Hreturned|]. split; [exact Hid|].
  split; [now injection Hreturned as <-|]. split; [exact Hconstraints|].
  split; [now rewrite Hcopied by discriminate|].
  split; [now rewrite Hcopied by discriminate|].
  apply (Hunique eq_refl stewWorld [] None None (Some "stew") []); [reflexivity|].
  vm_compute. reflexivity.
Defined.

(** ** The reloaded recipe *)


